(** * Witness-slip notifier: the parsing-and-routing pipeline

    A shallow embedding of [scripts/witness_slip_notifier.py]: the Bill
    model, the OpenStates record normalizer, the corpus loader, the topic
    router and the actionability filter, with the properties the
    specification states about them.

    Conventions.
    - A Python [str] is a [string]; characters are ASCII codes.  [lower]
      and [strip] act on the ASCII range and carry every other byte
      unchanged.
    - Code that can raise returns a [result]; a [try]/[except] is a match
      on it.
    - A Python [set] of strings is a [gset string]; a dict loaded from JSON
      is a [gmap string _]; the routed dict, whose insertion order is
      observable, is an association list. *)

From Stdlib Require Import ZArith Ascii String Lia.
From stdpp Require Import gmap strings list.

#[local] Set Warnings "-register-all,-clear-no-such-hyp".
#[local] Open Scope string_scope.
#[local] Open Scope list_scope.
#[local] Open Scope Z_scope.

(** ** Python strings *)

(** [c.lower()] for one character. *)
Definition lower_char (c : ascii) : ascii :=
  let n := nat_of_ascii c in
  if ((65 <=? n) && (n <=? 90))%nat then ascii_of_nat (n + 32) else c.

(** [s.lower()] *)
Fixpoint lower (s : string) : string :=
  match s with
  | EmptyString => EmptyString
  | String c s' => String (lower_char c) (lower s')
  end.

(** [c.isspace()]: tab, line feed, vertical tab, form feed, carriage
    return, the four separators 28..31 and the space. *)
Definition is_space (c : ascii) : bool :=
  let n := nat_of_ascii c in
  (((9 <=? n) && (n <=? 13)) || ((28 <=? n) && (n <=? 32)))%nat.

Fixpoint lstrip (s : string) : string :=
  match s with
  | EmptyString => EmptyString
  | String c s' => if is_space c then lstrip s' else s
  end.

Fixpoint rstrip (s : string) : string :=
  match s with
  | EmptyString => EmptyString
  | String c s' =>
      match rstrip s' with
      | EmptyString => if is_space c then EmptyString else String c EmptyString
      | r => String c r
      end
  end.

(** [s.strip()] *)
Definition strip (s : string) : string := rstrip (lstrip s).

(** [s.startswith(p)] *)
Fixpoint startswith (p s : string) : bool :=
  match p, s with
  | EmptyString, _ => true
  | String a p', String b s' => Ascii.eqb a b && startswith p' s'
  | String _ _, EmptyString => false
  end.

(** [needle in hay] on two strings. *)
Fixpoint contains (needle hay : string) : bool :=
  startswith needle hay ||
  match hay with
  | EmptyString => false
  | String _ hay' => contains needle hay'
  end.

(** What [needle in hay] means: [needle] occurs inside [hay]. *)
Definition substring_of (needle hay : string) : Prop :=
  exists before after, hay = before +:+ needle +:+ after.

(** The scan of [s.replace(old, new)] for a non-empty [old]: [skip] counts
    the characters of a match still to be passed over. *)
Fixpoint replace_scan (old new : string) (skip : nat) (s : string) : string :=
  match s with
  | EmptyString => EmptyString
  | String c s' =>
      match skip with
      | S k => replace_scan old new k s'
      | O =>
          if startswith old s
          then new +:+ replace_scan old new (String.length old - 1) s'
          else String c (replace_scan old new 0 s')
      end
  end.

Fixpoint replace_empty (new s : string) : string :=
  match s with
  | EmptyString => new
  | String c s' => new +:+ String c (replace_empty new s')
  end.

(** [s.replace(old, new)]: every non-overlapping occurrence, left to right;
    an empty [old] matches before each character and at the end. *)
Definition replace (old new s : string) : string :=
  match old with
  | EmptyString => replace_empty new s
  | String _ _ => replace_scan old new 0 s
  end.

(** [s.split(sep)] for a one-character separator: never an empty list. *)
Fixpoint split (sep : ascii) (s : string) : list string :=
  match s with
  | EmptyString => [EmptyString]
  | String c s' =>
      if Ascii.eqb c sep then EmptyString :: split sep s'
      else match split sep s' with
           | piece :: rest => String c piece :: rest
           | [] => [String c EmptyString]
           end
  end.

Definition is_digit (c : ascii) : bool :=
  let n := nat_of_ascii c in ((48 <=? n) && (n <=? 57))%nat.

Fixpoint all_digits (s : string) : bool :=
  match s with
  | EmptyString => true
  | String c s' => is_digit c && all_digits s'
  end.

(** The numeric portion of an identifier: its digits, in order. *)
Fixpoint digits_only (s : string) : string :=
  match s with
  | EmptyString => EmptyString
  | String c s' => if is_digit c then String c (digits_only s') else digits_only s'
  end.

(** ** Exceptions *)

Inductive exn :=
| AttributeError | TypeError | KeyError | IndexError | ValueError
| JSONDecodeError | OSError.

Inductive result (A : Type) :=
| Ok (a : A)
| Raise (e : exn).
Arguments Ok {A} a.
Arguments Raise {A} e.

(** Sequencing: the first exception ends the computation.  With these
    instances [x ← r; k] reads "run [r], name its value [x], go on with
    [k]". *)
#[global] Instance result_ret : MRet result := fun _ a => Ok a.
#[global] Instance result_bind : MBind result := fun _ _ k r =>
  match r with
  | Ok a => k a
  | Raise e => Raise e
  end.

(** [try: r  except Exception: handler] *)
Definition try_except {A} (r : result A) (handler : A) : A :=
  match r with
  | Ok a => a
  | Raise _ => handler
  end.

(** A [for] loop whose body can raise: the state is threaded through the
    items and the first exception leaves the loop. *)
Fixpoint for_each {S X} (body : S -> X -> result S) (st : S) (items : list X)
  : result S :=
  match items with
  | [] => Ok st
  | x :: rest => st' ← body st x; for_each body st' rest
  end.

(** ** The Bill model *)

Inductive BillReading := FIRST | SECOND | THIRD.
Inductive Chamber := HOUSE | SENATE.

Definition Chamber_value (c : Chamber) : string :=
  match c with HOUSE => "House" | SENATE => "Senate" end.

Definition BillReading_value (r : BillReading) : string :=
  match r with
  | FIRST => "First Reading"
  | SECOND => "Second Reading"
  | THIRD => "Third Reading"
  end.

#[global] Instance BillReading_eq_dec : EqDecision BillReading.
Proof. solve_decision. Defined.
#[global] Instance Chamber_eq_dec : EqDecision Chamber.
Proof. solve_decision. Defined.

(** A [datetime]: the wall-clock reading in microseconds and, for an aware
    value, its UTC offset in microseconds; [utcoffset = None] is a naive
    value such as [datetime.now()] returns. *)
Record datetime := mk_datetime { wall : Z; utcoffset : option Z }.

(** The class as its annotations type it. *)
Record Bill := mk_Bill {
  bill_number : string;
  chamber : Chamber;
  title : string;
  sponsor : string;
  next_reading : BillReading;
  subjects : list string;
  committee_hearing_date : option datetime;
  committee_name : option string;
  ilga_url : string
}.

Definition doc_type_of (c : Chamber) : string :=
  match c with HOUSE => "HB" | SENATE => "SB" end.

(** [Bill.get_bill_status_url]; it reads [self.chamber] and
    [self.bill_number] only. *)
Definition get_bill_status_url (chamber : Chamber) (bill_number : string) : string :=
  let doc_type := doc_type_of chamber in
  let bill_num :=
    replace "HB" "" (replace "SB" "" (replace doc_type "" bill_number)) in
  "https://www.ilga.gov/legislation/BillStatus?DocTypeID=" +:+ doc_type
    +:+ "&DocNum=" +:+ bill_num.

(** [Bill.get_witness_slip_url] *)
Definition get_witness_slip_url (self : Bill) : string :=
  "https://ilga.gov" +:+ "/" +:+ lower (Chamber_value (chamber self)) +:+ "/hearings".

(** [Bill.__init__]: [subjects or []] and
    [ilga_url or self.get_bill_status_url()]; an empty string is falsy. *)
Definition Bill_init (bill_number : string) (chamber : Chamber)
    (title sponsor : string) (next_reading : BillReading)
    (subjects : option (list string))
    (committee_hearing_date : option datetime)
    (committee_name : option string) (ilga_url : option string) : Bill :=
  {| bill_number := bill_number;
     chamber := chamber;
     title := title;
     sponsor := sponsor;
     next_reading := next_reading;
     subjects := default [] subjects;
     committee_hearing_date := committee_hearing_date;
     committee_name := committee_name;
     ilga_url :=
       match ilga_url with
       | Some (String c u) => String c u
       | Some EmptyString | None => get_bill_status_url chamber bill_number
       end |}.

(** [Bill.matches_topics] *)
Definition matches_topics (self : Bill) (topic_list : list string) : bool :=
  match subjects self with
  | [] => false
  | _ :: _ =>
      let normalized_subjects := lower <$> subjects self in
      let normalized_topics := (fun t => strip (lower t)) <$> topic_list in
      existsb (fun subject =>
        existsb (fun topic => contains topic subject || contains subject topic)
                normalized_topics)
        normalized_subjects
  end.

(** ** The actionability filter (in [main]) *)

(** [timedelta(days=d)] in microseconds. *)
Definition timedelta_days (d : Z) : Z := d * 86400000000.

(** [a + delta] *)
Definition datetime_add (a : datetime) (delta : Z) : datetime :=
  {| wall := wall a + delta; utcoffset := utcoffset a |}.

(** [a <= b] on two datetimes: two naive values compare their wall clocks,
    two aware values the instants they denote, and Python refuses to
    compare a naive with an aware value. *)
Definition datetime_le (a b : datetime) : result bool :=
  match utcoffset a, utcoffset b with
  | None, None => Ok (wall a <=? wall b)
  | Some oa, Some ob => Ok (wall a - oa <=? wall b - ob)
  | None, Some _ | Some _, None => Raise TypeError
  end.

(** [datetime.now()] is naive; [clock] is the wall-clock reading. *)
Definition datetime_now (clock : Z) : datetime :=
  {| wall := clock; utcoffset := None |}.

(** The condition of the comprehension:
    [(b.committee_hearing_date and now <= b.committee_hearing_date <= future)
     or b.next_reading in [FIRST, SECOND]]; a datetime is always truthy. *)
Definition is_actionable (now : datetime) (b : Bill) : result bool :=
  let future := datetime_add now (timedelta_days 30) in
  in_window ←
    match committee_hearing_date b with
    | None => Ok false
    | Some d =>
        after_now ← datetime_le now d;
        if after_now : bool then datetime_le d future else Ok false
    end;
  if in_window : bool then Ok true
  else Ok (bool_decide (next_reading b ∈ [FIRST; SECOND])).

(** [[b for b in bills if ...]] with a condition that can raise. *)
Fixpoint actionable (now : datetime) (bills : list Bill) : result (list Bill) :=
  match bills with
  | [] => Ok []
  | b :: rest =>
      keep ← is_actionable now b;
      kept ← actionable now rest;
      Ok (if keep : bool then b :: kept else kept)
  end.

(** ** Configuration: [EnvironmentConfig.load], the subscriptions *)

Record Subscription := mk_Subscription {
  topics : list string;
  recipients : list string
}.

Record Subscriptions := mk_Subscriptions {
  transportation : Subscription;
  housing : Subscription;
  all_recipients : list string;
  tracked_bills : list string
}.

(** [os.getenv(name, default)]: the default only when the variable is
    unset; a variable set to the empty string yields the empty string. *)
Definition getenv (environ : gmap string string) (name default : string) : string :=
  match environ !! name with
  | Some v => v
  | None => default
  end.

Definition comma : ascii := ","%char.

(** [[t.strip() for t in raw.split(',')]] *)
Definition stripped_items (raw : string) : list string :=
  strip <$> split comma raw.

(** [[r.strip() for r in raw.split(',') if r.strip()]] *)
Definition nonempty_items (raw : string) : list string :=
  strip <$> filter (fun r => strip r ≠ "") (split comma raw).

Definition load_subscriptions (environ : gmap string string) : Subscriptions :=
  {| transportation :=
       {| topics := stripped_items (getenv environ "TOPICS_TRANSPORTATION"
            "Transportation,Public Transit,Roads,Highways,Bicycle,Pedestrian,Traffic");
          recipients := nonempty_items (getenv environ "RECIPIENTS_TRANSPORTATION" "") |};
     housing :=
       {| topics := stripped_items (getenv environ "TOPICS_HOUSING"
            "Housing,Affordable Housing,Real Estate,Zoning,Land Use,Development");
          recipients := nonempty_items (getenv environ "RECIPIENTS_HOUSING" "") |};
     all_recipients := nonempty_items (getenv environ "RECIPIENTS_ALL" "");
     tracked_bills := nonempty_items (getenv environ "TRACKED_BILLS" "") |}.

(** ** The topic router: [NotificationGenerator._route_bills] *)

(** The routed dict: category label to bills, in insertion order. *)
Definition Routed := list (string * list Bill).

Definition tracked_label : string := "🎯 Tracked Bills".
Definition transportation_label : string := "🚇 Transportation & Transit".
Definition housing_label : string := "🏘️ Housing & Development".

(** [label in routed] *)
Definition routed_has (label : string) (routed : Routed) : bool :=
  existsb (fun entry => String.eqb entry.1 label) routed.

(** [routed[label] = bills]: an existing key keeps its place. *)
Fixpoint routed_set (label : string) (bills : list Bill) (routed : Routed) : Routed :=
  match routed with
  | [] => [(label, bills)]
  | (l, old) :: rest =>
      if String.eqb l label then (l, bills) :: rest
      else (l, old) :: routed_set label bills rest
  end.

(** [routed[label].append(bill)] for a key that is present. *)
Fixpoint routed_append (label : string) (bill : Bill) (routed : Routed) : Routed :=
  match routed with
  | [] => []
  | (l, old) :: rest =>
      if String.eqb l label then (l, old ++ [bill]) :: rest
      else (l, old) :: routed_append label bill rest
  end.

(** The body of the loop over tracked bills. *)
Definition track_bill (tracked : list string) (st : Routed * gset string)
    (bill : Bill) : Routed * gset string :=
  let '(routed, matched) := st in
  if bool_decide (bill_number bill ∈ tracked) then
    let routed :=
      if routed_has tracked_label routed then routed
      else routed_set tracked_label [] routed in
    (routed_append tracked_label bill routed, {[bill_number bill]} ∪ matched)
  else st.

(** One topic subscription: gated on its recipients, it takes the bills not
    yet matched that match its topics and then marks them matched. *)
Definition route_topic (label : string) (sub : Subscription) (bills : list Bill)
    (st : Routed * gset string) : Routed * gset string :=
  let '(routed, matched) := st in
  match recipients sub with
  | [] => st
  | _ :: _ =>
      let selected :=
        filter (fun b => (bill_number b ∉ matched) ∧ matches_topics b (topics sub) = true)
               bills in
      match selected with
      | [] => st
      | _ :: _ =>
          (routed_set label selected routed,
           foldl (fun m b => {[bill_number b]} ∪ m) matched selected)
      end
  end.

Definition _route_bills (subs : Subscriptions) (bills : list Bill) : Routed :=
  let st := foldl (track_bill (tracked_bills subs)) ([], ∅) bills in
  let st := route_topic transportation_label (transportation subs) bills st in
  let st := route_topic housing_label (housing subs) bills st in
  st.1.

(** [bill] is listed under [label]. *)
Definition routed_to (routed : Routed) (label : string) (bill : Bill) : Prop :=
  ∃ listed, (label, listed) ∈ routed ∧ bill ∈ listed.

(** ** Deduplication: the last loop of [parse_data_directory] *)

(** The loop is the same at every type of bill object; [key] computes what
    [bill.bill_number not in seen] hashes, and raises when it cannot. *)
Section Deduplicate.
Context {B K : Type} `{Countable K}.
Variable key : B -> result K.

Definition dedup_step (st : gset K * list B) (bill : B) : result (gset K * list B) :=
  k ← key bill;
  let '(seen, unique_bills) := st in
  if bool_decide (k ∈ seen) then Ok st
  else Ok ({[k]} ∪ seen, unique_bills ++ [bill]).

Definition deduplicate (bills : list B) : result (list B) :=
  st ← for_each dedup_step (∅, []) bills;
  Ok st.2.
End Deduplicate.

(** On bills typed as annotated the key is the identifier string. *)
Definition unique_bills (bills : list Bill) : result (list Bill) :=
  deduplicate (fun b => Ok (bill_number b)) bills.

(** ** Values loaded from JSON *)

(** What [json.load] returns: [None], booleans, numbers, strings, lists and
    dicts with string keys.  A float behaves like the integer constructor
    in every operation below (truthy unless zero, no [get], [lower] or
    [replace], hashable), so numbers are integers here. *)
Inductive pyval :=
| PNone
| PBool (b : bool)
| PInt (n : Z)
| PStr (s : string)
| PList (items : list pyval)
| PDict (entries : gmap string pyval).

(** [bool(v)] *)
Definition truthy (v : pyval) : bool :=
  match v with
  | PNone => false
  | PBool b => b
  | PInt n => negb (n =? 0)
  | PStr s => negb (String.eqb s "")
  | PList items => match items with [] => false | _ :: _ => true end
  | PDict entries => negb (bool_decide (dom entries = ∅))
  end.

(** [o.get(k, default)]: only a dict has the method. *)
Definition py_get (o : pyval) (k : string) (default : pyval) : result pyval :=
  match o with
  | PDict entries =>
      Ok (match entries !! k with Some v => v | None => default end)
  | _ => Raise AttributeError
  end.

(** [o.lower()]: only a str has the method. *)
Definition py_lower (o : pyval) : result string :=
  match o with
  | PStr s => Ok (lower s)
  | _ => Raise AttributeError
  end.

Fixpoint characters (s : string) : list pyval :=
  match s with
  | EmptyString => []
  | String c s' => PStr (String c EmptyString) :: characters s'
  end.

(** The keys of a dict, as [iter] yields them.  Their order is not
    recorded by the map; every loop below applies [get] to the element it
    is given, and a key, a str, has none. *)
Definition dict_keys (entries : gmap string pyval) : list pyval :=
  PStr <$> (map_to_list entries).*1.

(** [iter(o)] run to the end. *)
Definition py_iter (o : pyval) : result (list pyval) :=
  match o with
  | PList items => Ok items
  | PStr s => Ok (characters s)
  | PDict entries => Ok (dict_keys entries)
  | PNone | PBool _ | PInt _ => Raise TypeError
  end.

(** [reversed(o)] run to the end. *)
Definition py_reversed (o : pyval) : result (list pyval) :=
  items ← py_iter o; Ok (reverse items).

(** [o[0]]: a loaded dict has no key [0]. *)
Definition py_first (o : pyval) : result pyval :=
  match o with
  | PList (x :: _) => Ok x
  | PList [] => Raise IndexError
  | PStr (String c _) => Ok (PStr (String c EmptyString))
  | PStr EmptyString => Raise IndexError
  | PDict _ => Raise KeyError
  | PNone | PBool _ | PInt _ => Raise TypeError
  end.

(** What a set stores for a hashable value: [True] and [1] are the same
    element, lists and dicts are refused. *)
Inductive hkey := HNone | HNum (n : Z) | HStr (s : string).

#[global] Instance hkey_eq_dec : EqDecision hkey.
Proof. solve_decision. Defined.

#[global] Instance hkey_countable : Countable hkey.
Proof.
  refine (inj_countable'
    (fun k => match k with
              | HNone => inl ()
              | HNum n => inr (inl n)
              | HStr s => inr (inr s)
              end)
    (fun x => match x with
              | inl _ => HNone
              | inr (inl n) => HNum n
              | inr (inr s) => HStr s
              end) _).
  by intros [].
Defined.

(** [hash(v)], as far as set membership observes it. *)
Definition py_hash (v : pyval) : result hkey :=
  match v with
  | PNone => Ok HNone
  | PBool b => Ok (HNum (if b then 1 else 0))
  | PInt n => Ok (HNum n)
  | PStr s => Ok (HStr s)
  | PList _ | PDict _ => Raise TypeError
  end.

(** ** The record normalizer: [OpenStatesParser._parse_bill] *)

(** The object [Bill(...)] builds when its arguments come from loaded
    JSON: Python checks none of the annotations, so the fields the
    normalizer passes through hold loaded values. *)
Record BillObject := mk_BillObject {
  obj_bill_number : pyval;
  obj_chamber : Chamber;
  obj_title : pyval;
  obj_sponsor : pyval;
  obj_next_reading : BillReading;
  obj_subjects : pyval;
  obj_committee_hearing_date : option datetime;
  obj_committee_name : pyval;
  obj_ilga_url : pyval
}.

(** [Bill.__init__] on loaded values: [get_bill_status_url] runs only when
    [ilga_url] is falsy, and calls [replace] on the identifier. *)
Definition new_Bill (bill_number : pyval) (chamber : Chamber)
    (title sponsor : pyval) (next_reading : BillReading) (subjects : pyval)
    (committee_hearing_date : option datetime)
    (committee_name ilga_url : pyval) : result BillObject :=
  url ←
    (if truthy ilga_url then Ok ilga_url
     else match bill_number with
          | PStr s => Ok (PStr (get_bill_status_url chamber s))
          | _ => Raise AttributeError
          end);
  Ok {| obj_bill_number := bill_number;
        obj_chamber := chamber;
        obj_title := title;
        obj_sponsor := sponsor;
        obj_next_reading := next_reading;
        obj_subjects := if truthy subjects then subjects else PList [];
        obj_committee_hearing_date := committee_hearing_date;
        obj_committee_name := committee_name;
        obj_ilga_url := url |}.

(** The Bill of the annotations that an object is, when its fields hold
    what the annotations say. *)
Definition strings_of (v : pyval) : option (list string) :=
  match v with
  | PList items =>
      mapM (fun x => match x with PStr s => Some s | _ => None end) items
  | _ => None
  end.

Definition as_Bill (o : BillObject) : option Bill :=
  match obj_bill_number o, obj_title o, obj_sponsor o, obj_ilga_url o with
  | PStr number, PStr title, PStr sponsor, PStr url =>
      subjects ← strings_of (obj_subjects o);
      name ← match obj_committee_name o with
             | PNone => Some None
             | PStr n => Some (Some n)
             | _ => None
             end;
      Some {| bill_number := number;
              chamber := obj_chamber o;
              title := title;
              sponsor := sponsor;
              next_reading := obj_next_reading o;
              subjects := subjects;
              committee_hearing_date := obj_committee_hearing_date o;
              committee_name := name;
              ilga_url := url |}
  | _, _, _, _ => None
  end.

(** A file found by [glob("**/*.json")]: its name and what [open] and
    [json.load] make of it, a value or an exception. *)
Record json_file := mk_json_file {
  file_name : string;
  loaded : result pyval
}.

Section Normalizer.
(** [datetime.fromisoformat], of the standard library: [None] stands for
    its [ValueError]. *)
Variable fromisoformat : string -> option datetime.

(** Chamber *)
Definition parse_chamber (bill_data : pyval) : result Chamber :=
  org ← py_get bill_data "from_organization" (PDict ∅);
  chamber_str ← py_get org "classification" (PStr "");
  low ← py_lower chamber_str;
  Ok (if contains "upper" low || contains "senate" low then SENATE else HOUSE).

(** Title *)
Definition parse_title (bill_data : pyval) : result pyval :=
  title ← py_get bill_data "title" (PStr "Unknown");
  Ok (match title with
      | PList (first :: _) => first
      | PList [] => PStr "Unknown"
      | _ => title
      end).

(** [next((s for s in sponsors if s.get('primary')), default)] *)
Fixpoint first_primary (sponsors : list pyval) (default : pyval) : result pyval :=
  match sponsors with
  | [] => Ok default
  | s :: rest =>
      primary ← py_get s "primary" PNone;
      if truthy primary then Ok s else first_primary rest default
  end.

(** Sponsor *)
Definition parse_sponsor (bill_data : pyval) : result pyval :=
  sponsors ← py_get bill_data "sponsorships" (PList []);
  if truthy sponsors then
    items ← py_iter sponsors;
    default ← py_first sponsors;
    primary ← first_primary items default;
    py_get primary "name" (PStr "Unknown")
  else Ok (PStr "Unknown").

(** Subjects *)
Definition parse_subjects (bill_data : pyval) : result pyval :=
  subjects ← py_get bill_data "subject" (PList []);
  Ok (match subjects with
      | PStr s => PList [PStr s]
      | _ => subjects
      end).

(** Reading stage: the loop over [reversed(actions)], given the actions
    most recent first. *)
Fixpoint scan_reading (recent_first : list pyval) : result BillReading :=
  match recent_first with
  | [] => Ok FIRST
  | action :: earlier =>
      description ← py_get action "description" (PStr "");
      desc ← py_lower description;
      if contains "third reading" desc then Ok THIRD
      else if contains "second reading" desc then Ok SECOND
      else scan_reading earlier
  end.

Definition reading_stage (actions : pyval) : result BillReading :=
  recent_first ← py_reversed actions;
  scan_reading recent_first.

(** The date of a hearing action: a falsy [date] is not parsed, and the
    bare [except] swallows the failure of [replace] on a value that is
    not a str as well as that of the parse. *)
Definition hearing_date (date_str : pyval) : option datetime :=
  if truthy date_str then
    match date_str with
    | PStr s => fromisoformat (replace "Z" "+00:00" s)
    | _ => None
    end
  else None.

(** Committee info: the loop over [actions], earliest first. *)
Fixpoint scan_committee (actions : list pyval) : result (option datetime * pyval) :=
  match actions with
  | [] => Ok (None, PNone)
  | action :: later =>
      description ← py_get action "description" (PStr "");
      desc ← py_lower description;
      if contains "committee" desc && contains "hearing" desc then
        date_str ← py_get action "date" PNone;
        let committee_date := hearing_date date_str in
        org ← py_get action "organization" (PDict ∅);
        committee_name ← py_get org "name" PNone;
        Ok (committee_date, committee_name)
      else scan_committee later
  end.

Definition committee_info (actions : pyval) : result (option datetime * pyval) :=
  items ← py_iter actions;
  scan_committee items.

(** URL *)
Definition parse_source_url (bill_data : pyval) : result pyval :=
  sources ← py_get bill_data "sources" (PList []);
  if truthy sources then
    first ← py_first sources;
    py_get first "url" PNone
  else Ok PNone.

(** The body of the [try]: [Ok None] is the [return None] of a record
    without identifier. *)
Definition parse_bill_body (bill_data : pyval) : result (option BillObject) :=
  identifier ← py_get bill_data "identifier" PNone;
  identifier ←
    (if truthy identifier then Ok identifier
     else py_get bill_data "bill_id" PNone);
  if negb (truthy identifier) then Ok None
  else
    chamber ← parse_chamber bill_data;
    title ← parse_title bill_data;
    sponsor ← parse_sponsor bill_data;
    subjects ← parse_subjects bill_data;
    actions ← py_get bill_data "actions" (PList []);
    next_reading ← reading_stage actions;
    committee ← committee_info actions;
    ilga_url ← parse_source_url bill_data;
    bill ← new_Bill identifier chamber title sponsor next_reading subjects
                    committee.1 committee.2 ilga_url;
    Ok (Some bill).

(** [except Exception: return None] *)
Definition _parse_bill (bill_data : pyval) : option BillObject :=
  try_except (parse_bill_body bill_data) None.

(** ** The corpus loader: [OpenStatesParser.parse_data_directory] *)

(** One turn of the loop over the files: the bills it appends.  Nothing
    after a successful [json.load] can raise, so a file appends all of
    its bills or none. *)
Definition parse_file (bill_file : json_file) : list BillObject :=
  if String.eqb (file_name bill_file) "metadata.json" then []
  else
    try_except
      (data ← loaded bill_file;
       Ok (match data with
           | PList items => omap _parse_bill items
           | _ => option_list (_parse_bill data)
           end))
      [].

(** The data directory: [None] when the path does not exist, else the
    files in the order [glob] lists them. *)
Definition parse_data_directory (data_dir : option (list json_file))
  : result (list BillObject) :=
  match data_dir with
  | None => Ok []
  | Some bill_files =>
      let bills := bill_files ≫= parse_file in
      deduplicate (fun bill => py_hash (obj_bill_number bill)) bills
  end.
End Normalizer.

(** ** A date parser to run the normalizer with

    [datetime.fromisoformat] belongs to the standard library and the
    normalizer is stated for any such function.  The examples run it with
    this reader of the two shapes OpenStates uses, [YYYY-MM-DD] and
    [YYYY-MM-DDTHH:MM:SS] with an optional [+HH:MM] or [-HH:MM]. *)

Fixpoint take_number (n : nat) (acc : Z) (s : string) : option (Z * string) :=
  match n with
  | O => Some (acc, s)
  | S n' =>
      match s with
      | String c s' =>
          if is_digit c
          then take_number n' (10 * acc + (Z.of_nat (nat_of_ascii c) - 48)) s'
          else None
      | EmptyString => None
      end
  end.

Definition expect (c : ascii) (s : string) : option string :=
  match s with
  | String c' s' => if Ascii.eqb c c' then Some s' else None
  | EmptyString => None
  end.

Definition is_leap (y : Z) : bool :=
  (y mod 4 =? 0) && (negb (y mod 100 =? 0) || (y mod 400 =? 0)).

Definition days_in_month (y m : Z) : Z :=
  if m =? 2 then (if is_leap y then 29 else 28)
  else if (m =? 4) || (m =? 6) || (m =? 9) || (m =? 11) then 30
  else 31.

Definition days_before_year (y : Z) : Z :=
  let p := y - 1 in p * 365 + p / 4 - p / 100 + p / 400.

Fixpoint days_before_month (y : Z) (m : nat) : Z :=
  match m with
  | O => 0
  | S m' => days_before_month y m' + days_in_month y (Z.of_nat m)
  end.

(** Microseconds from 0001-01-01T00:00:00 to the given wall-clock reading. *)
Definition wall_clock (y m d hh mm ss : Z) : Z :=
  let days := days_before_year y + days_before_month y (Z.to_nat (m - 1)) + (d - 1) in
  ((days * 24 + hh) * 60 + mm) * 60000000 + ss * 1000000.

Definition read_date (s : string) : option (Z * Z * Z * string) :=
  '(y, s) ← take_number 4 0 s;
  s ← expect "-" s;
  '(m, s) ← take_number 2 0 s;
  s ← expect "-" s;
  '(d, s) ← take_number 2 0 s;
  if (1 <=? y) && (1 <=? m) && (m <=? 12) && (1 <=? d) && (d <=? days_in_month y m)
  then Some (y, m, d, s) else None.

Definition read_time (s : string) : option (Z * Z * Z * string) :=
  '(hh, s) ← take_number 2 0 s;
  s ← expect ":" s;
  '(mm, s) ← take_number 2 0 s;
  s ← expect ":" s;
  '(ss, s) ← take_number 2 0 s;
  if (hh <? 24) && (mm <? 60) && (ss <? 60) then Some (hh, mm, ss, s) else None.

Definition read_offset (s : string) : option (option Z) :=
  match s with
  | EmptyString => Some None
  | String sign s =>
      '(hh, s) ← take_number 2 0 s;
      s ← expect ":" s;
      '(mm, s) ← take_number 2 0 s;
      let offset := (hh * 60 + mm) * 60000000 in
      if negb (String.eqb s "") || negb ((hh <? 24) && (mm <? 60)) then None
      else if Ascii.eqb sign "+" then Some (Some offset)
      else if Ascii.eqb sign "-" then Some (Some (- offset))
      else None
  end.

Definition fromisoformat_basic (s : string) : option datetime :=
  '(y, m, d, s) ← read_date s;
  match s with
  | EmptyString => Some {| wall := wall_clock y m d 0 0 0; utcoffset := None |}
  | String _ s =>
      '(hh, mm, ss, s) ← read_time s;
      offset ← read_offset s;
      Some {| wall := wall_clock y m d hh mm ss; utcoffset := offset |}
  end.

(** ** Sample data *)

Definition action (description date : string) : pyval :=
  PDict (list_to_map [("description", PStr description); ("date", PStr date)]).

(** A bill read a first time, read a second time, then referred again. *)
Definition rereferral_actions : list pyval :=
  [action "First Reading" "2025-01-01";
   action "Second Reading" "2025-01-05";
   action "First Reading" "2025-01-10"].

Definition rereferral_record : pyval :=
  PDict (list_to_map [("identifier", PStr "HB1234");
                      ("actions", PList rereferral_actions)]).

(** The record of the end-to-end scenario. *)
Definition housing_record : pyval :=
  PDict (list_to_map [("identifier", PStr "HB1234");
                      ("subject", PStr "Affordable Housing")]).

(** A hearing action as OpenStates writes it, and one with a date that
    does not parse. *)
Definition hearing_action (date : pyval) : gmap string pyval :=
  list_to_map [("description", PStr "Assigned to Housing Committee Hearing");
               ("date", date);
               ("organization", PDict {[ "name" := PStr "Housing" ]})].

Definition hearing_record (date : pyval) : pyval :=
  PDict (list_to_map
    [("identifier", PStr "SB0012");
     ("from_organization", PDict {[ "classification" := PStr "upper" ]});
     ("actions", PList [action "First Reading" "2025-11-01";
                        PDict (hearing_action date);
                        action "Committee Hearing Rescheduled" "2025-12-01"])]).

(** A record whose identifier is a JSON array, with a source URL. *)
Definition array_identifier_record : pyval :=
  PDict (list_to_map
    [("identifier", PList [PStr "HB1"]);
     ("sources", PList [PDict {[ "url" := PStr "https://example.org/HB1" ]}])]).

Definition sample_bill (number : string) (reading : BillReading)
    (subjects : list string) (hearing : option datetime) : Bill :=
  Bill_init number HOUSE "Unknown" "Unknown" reading (Some subjects) hearing None None.

Definition sample_subscriptions (transportation_recipients : list string) : Subscriptions :=
  {| transportation :=
       {| topics := ["Transportation"; "Housing"];
          recipients := transportation_recipients |};
     housing := {| topics := ["Housing"]; recipients := ["housing@example.org"] |};
     all_recipients := [];
     tracked_bills := ["HB0001"] |}.

(** ** Reference notions used by the statements *)

(** The bills of a list whose key is not in [seen] and was not met
    earlier in the list. *)
Fixpoint first_seen {B K : Type} `{Countable K} (key : B -> K)
    (seen : gset K) (bills : list B) : list B :=
  match bills with
  | [] => []
  | b :: rest =>
      if bool_decide (key b ∈ seen) then first_seen key seen rest
      else b :: first_seen key ({[key b]} ∪ seen) rest
  end.

(** The hearing of [b] falls in the thirty days that start at [clock]. *)
Definition hearing_in_window (clock : Z) (b : Bill) : Prop :=
  ∃ d, committee_hearing_date b = Some d ∧
       clock ≤ wall d ≤ clock + timedelta_days 30.

(** The identifiers of a list of bills. *)
Definition numbers (bills : list Bill) : gset string :=
  list_to_set (bill_number <$> bills).

(** A category of the routed dict: absent when it has no bill. *)
Definition category (label : string) (bills : list Bill) : Routed :=
  match bills with
  | [] => []
  | _ :: _ => [(label, bills)]
  end.

(** The bills a topic subscription takes, given the identifiers matched so
    far. *)
Definition selected (sub : Subscription) (matched : gset string)
    (bills : list Bill) : list Bill :=
  match recipients sub with
  | [] => []
  | _ :: _ =>
      filter (fun b => (bill_number b ∉ matched) ∧ matches_topics b (topics sub) = true)
             bills
  end.

(** ** The JSON artifact: [NotificationGenerator.generate_json] *)

(** One element of the output list; [None] is the JSON [null]. *)
Record JsonEntry := mk_JsonEntry {
  entry_category : string;
  entry_bill_number : string;
  entry_title : string;
  entry_topics : list string;
  entry_chamber : string;
  entry_sponsor : string;
  entry_next_reading : string;
  entry_witness_slip_url : string;
  entry_bill_status_url : string;
  entry_committee_hearing : option string;
  entry_committee_name : option string
}.

Definition newline : string := String (ascii_of_nat 10) EmptyString.

Inductive Mode := github_action | local.

(** The message [send_email] composes; the [To] header is the recipients
    joined by a comma and a space. *)
Record Message := mk_Message {
  msg_from : string;
  msg_to : list string;
  msg_subject : string;
  msg_plain : string;
  msg_html : string
}.

(** How [send_email] reaches the server: host, port, and the credentials
    it logs in with, which it does only when user and password are both
    set. *)
Record SmtpSettings := mk_SmtpSettings {
  smtp_host : string;
  smtp_port : Z;
  smtp_login : option (string * string)
}.

(** What a run leaves behind: the files written, in order, each with its
    text, and the message sent, if any. *)
Record Effects := mk_Effects {
  written : list (string * string);
  emailed : option Message
}.

Section Rendering.
(** [datetime.isoformat] and [json.dumps], of the standard library, and
    the two templates [_generate_plain] and [_generate_html], whose text is
    not modelled; a template subtracts [datetime.now()] from each hearing
    date, which raises on a date that carries a zone. *)
Variable isoformat : datetime -> string.
Variable json_dumps : list JsonEntry -> string.
Variable _generate_plain : Routed -> result string.
Variable _generate_html : Routed -> result string.

(** [int] on a str, [None] standing for its [ValueError], and the work of
    the libraries in [send_email]: filling the [EmailMessage], opening
    [smtplib.SMTP(host, port)], the optional [starttls] and [login], and
    [send_message].  Any of these can raise, as when no server listens. *)
Variable py_int : string -> option Z.
Variable smtp_deliver : SmtpSettings -> Message -> result unit.

Definition json_entry (category : string) (bill : Bill) : JsonEntry :=
  {| entry_category := category;
     entry_bill_number := bill_number bill;
     entry_title := title bill;
     entry_topics := subjects bill;
     entry_chamber := Chamber_value (chamber bill);
     entry_sponsor := sponsor bill;
     entry_next_reading := BillReading_value (next_reading bill);
     entry_witness_slip_url := get_witness_slip_url bill;
     entry_bill_status_url := ilga_url bill;
     entry_committee_hearing := isoformat <$> committee_hearing_date bill;
     entry_committee_name := committee_name bill |}.

(** The two nested loops over [routed.items()] and the bills of each
    category. *)
Definition generate_json (subs : Subscriptions) (bills : list Bill) : list JsonEntry :=
  _route_bills subs bills ≫= fun entry => json_entry entry.1 <$> entry.2.

(** [NotificationGenerator.generate_notifications] *)
Definition generate_notifications (subs : Subscriptions) (bills : list Bill)
  : result (string * string) :=
  match _route_bills subs bills with
  | [] => Ok ("No bills matched subscriptions." +:+ newline, "<p>No bills matched.</p>")
  | routed =>
      plain ← _generate_plain routed;
      html ← _generate_html routed;
      Ok (plain, html)
  end.

(** [send_email]: nothing happens for an empty recipient list; otherwise
    the settings are read from the environment, the message is composed
    and delivered, and an exception of [int] or of the delivery leaves the
    function.  The result is the message that was delivered. *)
Definition send_email (environ : gmap string string)
    (subject plain_body html_body : string) (recipients : list string)
  : result (option Message) :=
  match recipients with
  | [] => Ok None
  | _ :: _ =>
      let host := getenv environ "SMTP_HOST" "localhost" in
      port ← match py_int (getenv environ "SMTP_PORT" "1025") with
             | Some port => Ok port
             | None => Raise ValueError
             end;
      let username := getenv environ "SMTP_USER" "" in
      let password := getenv environ "SMTP_PASSWORD" "" in
      let msg := {| msg_from := getenv environ "USER_EMAIL" "[email protected]";
                    msg_to := recipients;
                    msg_subject := subject;
                    msg_plain := plain_body;
                    msg_html := html_body |} in
      let login :=
        if negb (String.eqb username "") && negb (String.eqb password "")
        then Some (username, password) else None in
      _ ← smtp_deliver {| smtp_host := host; smtp_port := port;
                          smtp_login := login |} msg;
      Ok (Some msg)
  end.

(** The three artifacts of the github-action mode. *)
Definition write_artifacts (mode : Mode) (text html json : string) : Effects :=
  match mode with
  | github_action =>
      {| written := [("notifications_output.txt", text);
                     ("notifications_output.html", html);
                     ("witness_slip_notifications.json", json)];
         emailed := None |}
  | local => {| written := []; emailed := None |}
  end.

(** [main] from the point where the configuration and the bills are
    loaded (line 588 on), on bills typed as annotated; [clock] is the
    reading of [datetime.now()].  Printing is left out, and every
    [sys.exit(0)] is a return.  [environ] is the environment [send_email]
    reads. *)
Definition main_after_loading (mode : Mode) (environ : gmap string string)
    (subs : Subscriptions) (clock : Z) (bills : list Bill) : result Effects :=
  match bills with
  | [] => Ok (write_artifacts mode ("No bills found." +:+ newline)
                "<p>No bills found.</p>" "[]")
  | _ :: _ =>
      kept ← actionable (datetime_now clock) bills;
      match kept with
      | [] => Ok (write_artifacts mode ("No actionable bills." +:+ newline)
                    "<p>No actionable bills.</p>" "[]")
      | _ :: _ =>
          notifications ← generate_notifications subs kept;
          let '(plain, html) := notifications in
          let json_output := generate_json subs kept in
          match json_output with
          | [] => Ok (write_artifacts mode ("No matches." +:+ newline)
                        "<p>No matches.</p>" "[]")
          | _ :: _ =>
              match mode with
              | github_action =>
                  Ok (write_artifacts mode plain html (json_dumps json_output))
              | local =>
                  let all_recipients :=
                    recipients (transportation subs) ++ recipients (housing subs)
                      ++ all_recipients subs in
                  sent ← send_email environ
                           "IL Witness Slip Alerts – Urbanist Bills"
                           plain html all_recipients;
                  Ok {| written := []; emailed := sent |}
              end
          end
      end
  end.
End Rendering.

(** ** Reference notions for the further properties *)

(** The description of an action, lower-cased, contains [phrase]. *)
Definition mentions (phrase : string) (action : pyval) : Prop :=
  ∃ description,
    py_get action "description" (PStr "") = Ok (PStr description)
    ∧ contains phrase (lower description) = true.

(** The description of an action is a str that contains neither
    "third reading" nor "second reading". *)
Definition mentions_no_reading (action : pyval) : Prop :=
  ∃ description,
    py_get action "description" (PStr "") = Ok (PStr description)
    ∧ contains "third reading" (lower description) = false
    ∧ contains "second reading" (lower description) = false.

(** A file the loader reads: any name but [metadata.json], and content
    that loads. *)
Definition readable (bill_file : json_file) : bool :=
  negb (String.eqb (file_name bill_file) "metadata.json")
  && match loaded bill_file with Ok _ => true | Raise _ => false end.

(** A hearing date that carries a zone. *)
Definition aware_hearing (b : Bill) : Prop :=
  ∃ d offset, committee_hearing_date b = Some d ∧ utcoffset d = Some offset.

(** A bill some subscription takes: its identifier is tracked, or it
    matches the topics of a subscription that has a recipient. *)
Definition eligible (subs : Subscriptions) (b : Bill) : Prop :=
  bill_number b ∈ tracked_bills subs
  ∨ (recipients (transportation subs) ≠ []
     ∧ matches_topics b (topics (transportation subs)) = true)
  ∨ (recipients (housing subs) ≠ []
     ∧ matches_topics b (topics (housing subs)) = true).

(** [s.get('primary')] is truthy, for a sponsorship that is a dict. *)
Definition primary_flag (sponsorship : pyval) : bool :=
  match sponsorship with
  | PDict entries => truthy (default PNone (entries !! "primary"))
  | _ => false
  end.

(** The sponsorship [next(...)] settles on: the first one flagged
    primary, else the first one. *)
Definition chosen_sponsorship (first : pyval) (others : list pyval) : pyval :=
  from_option snd first (list_find (λ s, primary_flag s = true) (first :: others)).

(** ** Further sample data *)

Definition sponsorship (name : string) (primary : bool) : pyval :=
  PDict (list_to_map [("name", PStr name); ("primary", PBool primary)]).

(** A Senate record as OpenStates writes one: titles and subjects in
    lists, two sponsors, a source URL. *)
Definition senate_record : pyval :=
  PDict (list_to_map
    [("identifier", PStr "SB 2111");
     ("from_organization", PDict {[ "classification" := PStr "Upper" ]});
     ("title", PList [PStr "TRANSIT-GOVERNANCE"; PStr "Transit reform"]);
     ("sponsorships", PList [sponsorship "Ann Cosponsor" false;
                             sponsorship "Ram Primary" true]);
     ("subject", PList [PStr "Transportation"]);
     ("actions", PList [action "First Reading" "2025-01-01";
                        action "Second Reading" "2025-02-01";
                        action "Third Reading - Passed" "2025-03-01";
                        action "Arrive in House" "2025-03-02"]);
     ("sources", PList [PDict {[ "url" := PStr "https://ilga.gov/SB2111" ]}])]).

(** What the set of seen identifiers stores for a bill; a value that
    cannot be hashed has none, and [HNone] stands in for it. *)
Definition identifier_key (b : BillObject) : hkey :=
  match py_hash (obj_bill_number b) with
  | Ok k => k
  | Raise _ => HNone
  end.

(** A JSON array or object: the values [hash] refuses. *)
Definition unhashable (v : pyval) : Prop :=
  match v with
  | PList _ | PDict _ => True
  | _ => False
  end.

(** A data directory: two records of the same identifier in different
    files, a Senate record, the metadata file and a file that does not
    decode. *)
Definition sample_directory : list json_file :=
  [ {| file_name := "HB1234.json"; loaded := Ok housing_record |};
    {| file_name := "metadata.json"; loaded := Ok housing_record |};
    {| file_name := "broken.json"; loaded := Raise JSONDecodeError |};
    {| file_name := "bills.json";
       loaded := Ok (PList [PInt 7; rereferral_record; senate_record]) |} ].

#[global] Instance hearing_in_window_dec (clock : Z) (b : Bill) :
  Decision (hearing_in_window clock b).
Proof.
  unfold hearing_in_window. destruct (committee_hearing_date b) as [d|].
  - destruct (decide (clock ≤ wall d ≤ clock + timedelta_days 30)) as [Hin|Hout].
    + left. by exists d.
    + right. by intros (d' & [= <-] & Hin).
  - right. by intros (d' & [=] & _).
Defined.

(** What the filter keeps when it returns: a hearing within thirty days,
    or a first or second reading ahead. *)
Definition worth_a_slip (clock : Z) (b : Bill) : Prop :=
  hearing_in_window clock b ∨ next_reading b = FIRST ∨ next_reading b = SECOND.

(** Templates to run [main] with in the examples. *)
Definition sample_plain (routed : Routed) : result string := Ok "plain text".
Definition sample_html (routed : Routed) : result string := Ok "<p>html</p>".
Definition sample_dumps (entries : list JsonEntry) : string := "[...]".
Definition sample_isoformat (d : datetime) : string := "2025-11-20T15:00:00".

(** What [int] returns on an unsigned decimal literal; the examples run
    [send_email] with this reader. *)
Fixpoint read_decimal (acc : Z) (s : string) : Z :=
  match s with
  | EmptyString => acc
  | String c s' => read_decimal (10 * acc + (Z.of_nat (nat_of_ascii c) - 48)) s'
  end.

Definition int_basic (s : string) : option Z :=
  if all_digits s && negb (String.eqb s "") then Some (read_decimal 0 s) else None.

(** A server that accepts every message, and no server at all. *)
Definition accepting_server (settings : SmtpSettings) (msg : Message) : result unit :=
  Ok tt.
Definition no_server (settings : SmtpSettings) (msg : Message) : result unit :=
  Raise OSError.

Definition sample_bills : list Bill :=
  [sample_bill "HB0001" FIRST ["Housing"] None;
   sample_bill "HB0002" SECOND ["Public Transportation"; "Affordable Housing"] None;
   sample_bill "HB0003" THIRD ["Zoning"] None].

(** A bill whose hearing date carries the zone UTC. *)
Definition zoned_bill : Bill :=
  sample_bill "HB0004" SECOND ["Housing"]
    (Some {| wall := timedelta_days 10; utcoffset := Some 0 |}).

(** * Properties *)

(** ** Strings *)

Lemma startswith_app (p r : string) : startswith p (p +:+ r) = true.
Proof.
  induction p as [|c p IH]; simpl; [done|].
  by rewrite Ascii.eqb_refl, IH.
Qed.

Lemma startswith_inv (p s : string) :
  startswith p s = true → ∃ r, s = p +:+ r.
Proof.
  revert s. induction p as [|c p IH]; intros s Hs; simpl in *.
  - by exists s.
  - destruct s as [|d s]; [done|].
    apply andb_true_iff in Hs as [Hc Hp].
    apply Ascii.eqb_eq in Hc as ->.
    destruct (IH _ Hp) as [r ->]. by exists r.
Qed.

Lemma contains_spec (needle hay : string) :
  contains needle hay = true ↔ substring_of needle hay.
Proof.
  induction hay as [|c hay IH]; simpl.
  - rewrite orb_false_r. split.
    + intros [r Hr]%startswith_inv. exists "", r. done.
    + intros ([|? ?] & after & Heq); [|discriminate].
      change ("" = needle +:+ after) in Heq.
      destruct needle; [done|discriminate].
  - rewrite orb_true_iff, IH. split.
    + intros [[r Hr]%startswith_inv | (before & after & ->)].
      * exists "", r. done.
      * exists (String c before), after. done.
    + intros ([|d before] & after & Heq).
      * left. change (String c hay = needle +:+ after) in Heq.
        rewrite Heq. apply startswith_app.
      * right. change (String c hay = String d (before +:+ needle +:+ after)) in Heq.
        injection Heq as -> ->. by exists before, after.
Qed.

Lemma contains_empty (hay : string) : contains "" hay = true.
Proof. by destruct hay. Qed.

(** ** Topic matching *)

Lemma matches_topics_exists (b : Bill) (topic_list : list string) :
  matches_topics b topic_list = true ↔
  ∃ subject topic, subject ∈ subjects b ∧ topic ∈ topic_list ∧
    (contains (strip (lower topic)) (lower subject) = true ∨
     contains (lower subject) (strip (lower topic)) = true).
Proof.
  unfold matches_topics. destruct (subjects b) as [|s0 ss] eqn:Hsub.
  - split; [done|]. intros (s & t & Hs & _). by apply elem_of_nil in Hs.
  - rewrite existsb_exists. split.
    + intros (s' & Hs' & Ht).
      apply list_elem_of_In, list_elem_of_fmap in Hs' as (s & -> & Hs).
      apply existsb_exists in Ht as (t' & Ht' & Hm).
      apply list_elem_of_In, list_elem_of_fmap in Ht' as (t & -> & Ht).
      exists s, t. by rewrite orb_true_iff in Hm.
    + intros (s & t & Hs & Ht & Hm).
      exists (lower s). split.
      * apply list_elem_of_In, list_elem_of_fmap. by exists s.
      * apply existsb_exists. exists (strip (lower t)). split.
        -- apply list_elem_of_In, list_elem_of_fmap. by exists t.
        -- by rewrite orb_true_iff.
Qed.

(** C5. [matches_topics] is true exactly when some configured topic,
    lower-cased and trimmed, occurs inside some lower-cased subject of the
    bill, or some lower-cased subject occurs inside such a topic; a bill
    whose subjects are empty matches no topic list. *)
Theorem matches_topics_either_direction (b : Bill) (topic_list : list string) :
  (matches_topics b topic_list = true ↔
   ∃ subject topic, subject ∈ subjects b ∧ topic ∈ topic_list ∧
     (substring_of (strip (lower topic)) (lower subject) ∨
      substring_of (lower subject) (strip (lower topic))))
  ∧ (subjects b = [] → matches_topics b topic_list = false).
Proof.
  split.
  - rewrite matches_topics_exists.
    by setoid_rewrite contains_spec.
  - intros Hnil. unfold matches_topics. by rewrite Hnil.
Qed.

(** C10. A topic that is empty once trimmed matches every bill that has a
    subject, and a topic variable set to the empty string yields exactly
    such a topic list, for either subscription. *)
Theorem empty_topic_matches_every_subject (b : Bill) :
  subjects b ≠ [] →
  (∀ topic_list topic, topic ∈ topic_list → strip (lower topic) = "" →
     matches_topics b topic_list = true)
  ∧ (∀ environ : gmap string string,
       environ !! "TOPICS_TRANSPORTATION" = Some "" →
       topics (transportation (load_subscriptions environ)) = [""] ∧
       matches_topics b (topics (transportation (load_subscriptions environ))) = true)
  ∧ (∀ environ : gmap string string,
       environ !! "TOPICS_HOUSING" = Some "" →
       topics (housing (load_subscriptions environ)) = [""] ∧
       matches_topics b (topics (housing (load_subscriptions environ))) = true).
Proof.
  intros Hsub.
  assert (Hany : ∀ topic_list topic, topic ∈ topic_list →
            strip (lower topic) = "" → matches_topics b topic_list = true).
  { intros topic_list topic Hin Hempty. apply matches_topics_exists.
    destruct (subjects b) as [|s ss] eqn:Hs; [done|].
    exists s, topic. split; [by left|]. split; [done|].
    left. rewrite Hempty. apply contains_empty. }
  split; [exact Hany|].
  split; intros environ Henv; simpl; unfold getenv; rewrite Henv; simpl;
    (split; [done|]); (apply (Hany _ ""); [by left|done]).
Qed.

Lemma empty_topic_matches_every_subject_witness :
  matches_topics (sample_bill "HB1234" FIRST ["Affordable Housing"] None)
    (topics (transportation (load_subscriptions {[ "TOPICS_TRANSPORTATION" := "" ]})))
  = true.
Proof.
  refine (proj2 (proj1 (proj2
    (empty_topic_matches_every_subject
       (sample_bill "HB1234" FIRST ["Affordable Housing"] None) _))
    {[ "TOPICS_TRANSPORTATION" := "" ]} _)).
  - discriminate.
  - reflexivity.
Defined.

(** ** The status URL *)

Lemma replace_digits (o : ascii) (old new digits : string) :
  is_digit o = false → all_digits digits = true →
  replace (String o old) new digits = digits.
Proof.
  intros Ho. unfold replace.
  induction digits as [|c digits IH]; simpl; [done|].
  intros [Hc Hrest]%andb_true_iff.
  destruct (Ascii.eqb_spec o c) as [->|_]; [congruence|].
  simpl. by rewrite IH.
Qed.

Lemma replace_own_code (c : Chamber) (digits : string) :
  replace (doc_type_of c) "" (doc_type_of c +:+ digits)
  = replace (doc_type_of c) "" digits.
Proof. destruct c; destruct digits; reflexivity. Qed.

(** Where the status URL is the one built from the numeric portion: an
    identifier made of the chamber's code followed by digits only. *)
Lemma status_url_of_code_and_digits (c : Chamber) (digits : string)
    (title sponsor : string) (reading : BillReading)
    (subjects : option (list string)) (hearing : option datetime)
    (name : option string) :
  all_digits digits = true →
  digits_only (doc_type_of c +:+ digits) = digits
  ∧ ilga_url (Bill_init (doc_type_of c +:+ digits) c title sponsor reading
                        subjects hearing name None)
    = "https://www.ilga.gov/legislation/BillStatus?DocTypeID=" +:+ doc_type_of c
        +:+ "&DocNum=" +:+ digits.
Proof.
  intros Hdigits. split.
  - assert (Hsame : digits_only digits = digits).
    { induction digits as [|d digits IH]; [done|]. cbn in Hdigits |- *.
      apply andb_true_iff in Hdigits as [-> Hrest]. by rewrite IH. }
    destruct c; exact Hsame.
  - cbn [ilga_url Bill_init]. unfold get_bill_status_url.
    rewrite replace_own_code.
    assert (Hkeep : ∀ o old, is_digit o = false →
              replace (String o old) "" digits = digits)
      by (intros; by apply replace_digits).
    destruct c; cbn [doc_type_of]; by rewrite !Hkeep.
Qed.

Example house_bill_1234_status_url :
  ilga_url (Bill_init "HB1234" HOUSE "Unknown" "Unknown" FIRST None None None None)
  = "https://www.ilga.gov/legislation/BillStatus?DocTypeID=HB&DocNum=1234".
Proof.
  apply (status_url_of_code_and_digits HOUSE "1234"). reflexivity.
Qed.

(** Whatever separates the chamber's code from the digits stays: with a
    space between them, [DocNum] starts with the space. *)
Lemma status_url_keeps_a_space (c : Chamber) (digits : string)
    (title sponsor : string) (reading : BillReading)
    (subjects : option (list string)) (hearing : option datetime)
    (name : option string) :
  all_digits digits = true →
  ilga_url (Bill_init (doc_type_of c +:+ String " " digits) c title sponsor reading
                      subjects hearing name None)
  = "https://www.ilga.gov/legislation/BillStatus?DocTypeID=" +:+ doc_type_of c
      +:+ "&DocNum=" +:+ String " " digits.
Proof.
  intros Hdigits. cbn [ilga_url Bill_init]. unfold get_bill_status_url.
  assert (Hkeep : ∀ o old, is_digit o = false →
            replace (String o old) "" digits = digits)
    by (intros; by apply replace_digits).
  assert (HS : replace "SB" "" (String " " digits)
               = String " " (replace "SB" "" digits)) by reflexivity.
  assert (HH : replace "HB" "" (String " " digits)
               = String " " (replace "HB" "" digits)) by reflexivity.
  assert (Hown : replace (doc_type_of c) "" (doc_type_of c +:+ String " " digits)
                 = String " " (replace (doc_type_of c) "" digits))
    by (destruct c; reflexivity).
  rewrite Hown. destruct c; cbn [doc_type_of].
  - rewrite (Hkeep "H"%char "B") by done.
    rewrite HS, (Hkeep "S"%char "B") by done.
    by rewrite HH, (Hkeep "H"%char "B") by done.
  - rewrite (Hkeep "S"%char "B") by done.
    rewrite HS, (Hkeep "S"%char "B") by done.
    by rewrite HH, (Hkeep "H"%char "B") by done.
Qed.

(** C2 at the identifier "HB 1234", the form OpenStates gives Illinois
    identifiers.  Its numeric portion is "1234", but the three [replace]
    calls remove the chamber codes only: the status URL the Bill gets,
    built directly or by the normalizer from a record, carries
    [DocNum= 1234], space included, and is not the URL of the numeric
    portion. *)
Theorem spaced_identifier_breaks_the_status_url :
  digits_only "HB 1234" = "1234"
  ∧ ilga_url (Bill_init "HB 1234" HOUSE "Unknown" "Unknown" FIRST None None None None)
    = "https://www.ilga.gov/legislation/BillStatus?DocTypeID=HB&DocNum= 1234"
  ∧ ilga_url (Bill_init "HB 1234" HOUSE "Unknown" "Unknown" FIRST None None None None)
    ≠ "https://www.ilga.gov/legislation/BillStatus?DocTypeID=" +:+ doc_type_of HOUSE
        +:+ "&DocNum=" +:+ digits_only "HB 1234"
  ∧ ∃ b, _parse_bill fromisoformat_basic (PDict {[ "identifier" := PStr "HB 1234" ]})
         = Some b
         ∧ obj_ilga_url b
           = PStr "https://www.ilga.gov/legislation/BillStatus?DocTypeID=HB&DocNum= 1234".
Proof.
  split; [reflexivity|]. split; [reflexivity|]. split; [vm_compute; discriminate|].
  eexists. split; reflexivity.
Qed.

(** ** The actionability filter *)

Lemma is_actionable_naive (clock : Z) (b : Bill) :
  (∀ d, committee_hearing_date b = Some d → utcoffset d = None) →
  ∃ keep, is_actionable (datetime_now clock) b = Ok keep ∧
    (keep = true ↔
     hearing_in_window clock b ∨ next_reading b = FIRST ∨ next_reading b = SECOND).
Proof.
  intros Hnaive. unfold is_actionable, hearing_in_window.
  assert (Hstage : bool_decide (next_reading b ∈ [FIRST; SECOND]) = true ↔
                   next_reading b = FIRST ∨ next_reading b = SECOND).
  { rewrite bool_decide_eq_true, !elem_of_cons, elem_of_nil. tauto. }
  destruct (committee_hearing_date b) as [d|] eqn:Hd.
  - specialize (Hnaive d eq_refl).
    unfold datetime_le, datetime_now, datetime_add. simpl. rewrite Hnaive. simpl.
    destruct (Z.leb_spec clock (wall d)); simpl.
    + destruct (Z.leb_spec (wall d) (clock + timedelta_days 30)); simpl.
      * exists true. split; [done|]. split; [|done]. intros _. left. by exists d.
      * eexists. split; [done|]. rewrite Hstage. split; [tauto|].
        intros [(d' & [= <-] & ?)|?]; [lia|done].
    + eexists. split; [done|]. rewrite Hstage. split; [tauto|].
      intros [(d' & [= <-] & ?)|?]; [lia|done].
  - simpl. eexists. split; [done|]. rewrite Hstage. split; [tauto|].
    intros [(d' & [=] & ?)|?]; done.
Qed.

Example hearing_in_30_days_is_actionable :
  is_actionable (datetime_now 0)
    (sample_bill "HB1" THIRD [] (Some (mk_datetime (timedelta_days 30) None)))
  = Ok true.
Proof. reflexivity. Qed.

Example hearing_in_31_days_is_not_actionable :
  is_actionable (datetime_now 0)
    (sample_bill "HB1" THIRD [] (Some (mk_datetime (timedelta_days 31) None)))
  = Ok false.
Proof. reflexivity. Qed.

Example third_reading_without_hearing_is_not_actionable :
  is_actionable (datetime_now 0) (sample_bill "HB1" THIRD [] None) = Ok false.
Proof. reflexivity. Qed.

Lemma is_actionable_aware (clock : Z) (b : Bill) (d : datetime) (offset : Z) :
  committee_hearing_date b = Some d → utcoffset d = Some offset →
  is_actionable (datetime_now clock) b = Raise TypeError.
Proof.
  intros Hd Hoff. unfold is_actionable. rewrite Hd.
  unfold datetime_le, datetime_now. simpl. rewrite Hoff. reflexivity.
Qed.

(** C7 at a hearing date with a zone.  The normalizer turns the date
    "2025-11-20T15:00:00Z" into an aware datetime; the filter, run ten days
    earlier, compares it with the naive [datetime.now()] and raises
    instead of keeping the bill. *)
Theorem aware_hearing_date_stops_the_filter :
  ∃ now_ hearing,
    fromisoformat_basic "2025-11-10" = Some now_ ∧
    fromisoformat_basic (replace "Z" "+00:00" "2025-11-20T15:00:00Z") = Some hearing ∧
    actionable (datetime_now (wall now_))
      [sample_bill "HB0001" FIRST ["Housing"] None;
       sample_bill "HB1234" SECOND ["Housing"] (Some hearing)]
    = Raise TypeError.
Proof. do 2 eexists. split; [reflexivity|]. split; reflexivity. Qed.

(** ** Deduplication *)

Section DeduplicateFacts.
Context {B K : Type} `{Countable K}.
Variable key : B → K.




Lemma first_seen_sublist (seen : gset K) (bills : list B) :
  first_seen key seen bills `sublist_of` bills.
Proof.
  revert seen. induction bills as [|b rest IH]; intros seen; simpl; [done|].
  case_bool_decide; [by apply sublist_cons|by apply sublist_skip].
Qed.

Lemma first_seen_fresh (seen : gset K) (bills : list B) (b : B) :
  b ∈ first_seen key seen bills → key b ∉ seen.
Proof.
  revert seen. induction bills as [|x rest IH]; intros seen; simpl.
  - by intros ?%elem_of_nil.
  - case_bool_decide as Hx; [by apply IH|].
    intros [->|Hin%IH]%elem_of_cons; [done|set_solver].
Qed.

Lemma first_seen_NoDup (seen : gset K) (bills : list B) :
  NoDup (key <$> first_seen key seen bills).
Proof.
  revert seen. induction bills as [|x rest IH]; intros seen; simpl.
  - constructor.
  - case_bool_decide as Hx; [by apply IH|].
    rewrite fmap_cons. constructor; [|by apply IH].
    intros (y & Hy & Hin%first_seen_fresh)%list_elem_of_fmap. set_solver.
Qed.

Lemma first_seen_covers (seen : gset K) (bills : list B) (b : B) :
  b ∈ bills → key b ∉ seen → key b ∈ key <$> first_seen key seen bills.
Proof.
  revert seen. induction bills as [|x rest IH]; intros seen; simpl.
  - by intros ?%elem_of_nil.
  - intros [->|Hin]%elem_of_cons Hfresh.
    + rewrite bool_decide_eq_false_2 by done. rewrite fmap_cons. by left.
    + case_bool_decide as Hx; [by apply IH|].
      rewrite fmap_cons. destruct (decide (key b = key x)) as [->|Hne].
      * by left.
      * right. apply IH; [done|set_solver].
Qed.

Lemma first_seen_first (seen : gset K) (bills : list B) (b : B) :
  b ∈ first_seen key seen bills →
  ∃ i, list_find (λ x, key x = key b) bills = Some (i, b).
Proof.
  revert seen. induction bills as [|x rest IH]; intros seen; simpl.
  - by intros ?%elem_of_nil.
  - case_bool_decide as Hx.
    + intros Hin. pose proof (first_seen_fresh _ _ _ Hin) as Hfresh.
      destruct (IH _ Hin) as [i Hi].
      exists (S i). rewrite decide_False by congruence. by rewrite Hi.
    + intros [->|Hin]%elem_of_cons.
      * exists 0%nat. by rewrite decide_True.
      * pose proof (first_seen_fresh _ _ _ Hin) as Hfresh.
        destruct (IH _ Hin) as [i Hi].
        exists (S i). rewrite decide_False by set_solver. by rewrite Hi.
Qed.
End DeduplicateFacts.


(** ** Routing *)

Lemma numbers_app (l1 l2 : list Bill) : numbers (l1 ++ l2) = numbers l1 ∪ numbers l2.
Proof. unfold numbers. rewrite fmap_app. set_solver. Qed.

Lemma elem_of_numbers (n : string) (bills : list Bill) :
  n ∈ numbers bills ↔ ∃ b, b ∈ bills ∧ bill_number b = n.
Proof.
  unfold numbers. rewrite elem_of_list_to_set, list_elem_of_fmap. naive_solver.
Qed.

Lemma elem_of_category (label l : string) (bills listed : list Bill) :
  (l, listed) ∈ category label bills ↔ l = label ∧ listed = bills ∧ bills ≠ [].
Proof.
  destruct bills as [|b bills]; simpl.
  - rewrite elem_of_nil. naive_solver.
  - rewrite list_elem_of_singleton. naive_solver.
Qed.

Lemma track_loop (tracked : list string) (acc bills : list Bill) :
  foldl (track_bill tracked) (category tracked_label acc, numbers acc) bills
  = (category tracked_label (acc ++ filter (λ b, bill_number b ∈ tracked) bills),
     numbers (acc ++ filter (λ b, bill_number b ∈ tracked) bills)).
Proof.
  revert acc. induction bills as [|b rest IH]; intros acc.
  - by rewrite app_nil_r.
  - cbn [foldl]. unfold track_bill at 2. case_bool_decide as Htracked.
    + rewrite filter_cons_True by done.
      replace (acc ++ b :: filter (λ b, bill_number b ∈ tracked) rest)
        with ((acc ++ [b]) ++ filter (λ b, bill_number b ∈ tracked) rest)
        by (by rewrite <- app_assoc).
      rewrite <- IH. f_equal. f_equal.
      * destruct acc as [|a acc]; reflexivity.
      * rewrite numbers_app. unfold numbers at 2. simpl. set_solver.
    + rewrite filter_cons_False by done. apply IH.
Qed.

Lemma mark_matched (matched : gset string) (bills : list Bill) :
  foldl (λ m b, {[bill_number b]} ∪ m) matched bills = numbers bills ∪ matched.
Proof.
  revert matched. induction bills as [|b rest IH]; intros matched; simpl.
  - unfold numbers. simpl. set_solver.
  - rewrite IH. unfold numbers. simpl. set_solver.
Qed.

Lemma route_topic_selected (label : string) (sub : Subscription)
    (bills : list Bill) (routed : Routed) (matched : gset string) :
  route_topic label sub bills (routed, matched)
  = (match selected sub matched bills with
     | [] => routed
     | _ :: _ => routed_set label (selected sub matched bills) routed
     end,
     numbers (selected sub matched bills) ∪ matched).
Proof.
  unfold route_topic, selected.
  destruct (recipients sub) as [|r rs].
  - f_equal. unfold numbers. simpl. set_solver.
  - destruct (filter _ bills) as [|b sel] eqn:Hsel.
    + f_equal. unfold numbers. simpl. set_solver.
    + by rewrite mark_matched.
Qed.

(** The routed dict in closed form: the tracked bills, then the bills each
    subscription takes among those not yet matched. *)
Lemma route_bills_categories (subs : Subscriptions) (bills : list Bill) :
  _route_bills subs bills
  = category tracked_label (filter (λ b, bill_number b ∈ tracked_bills subs) bills)
    ++ category transportation_label
         (selected (transportation subs)
            (numbers (filter (λ b, bill_number b ∈ tracked_bills subs) bills)) bills)
    ++ category housing_label
         (selected (housing subs)
            (numbers (selected (transportation subs)
                        (numbers (filter (λ b, bill_number b ∈ tracked_bills subs) bills))
                        bills)
             ∪ numbers (filter (λ b, bill_number b ∈ tracked_bills subs) bills))
            bills).
Proof.
  unfold _route_bills. cbv zeta.
  change (foldl (track_bill ?t) ([], ∅) ?l)
    with (foldl (track_bill t) (category tracked_label [], numbers []) l).
  rewrite track_loop, app_nil_l, !route_topic_selected. cbn [fst].
  set (T := filter _ bills).
  set (R := selected (transportation subs) (numbers T) bills).
  set (H := selected (housing subs) (numbers R ∪ numbers T) bills).
  destruct T, R, H; reflexivity.
Qed.

Lemma routed_to_categories (subs : Subscriptions) (bills : list Bill)
    (label : string) (b : Bill) :
  routed_to (_route_bills subs bills) label b ↔
  (label = tracked_label ∧
     b ∈ filter (λ b, bill_number b ∈ tracked_bills subs) bills)
  ∨ (label = transportation_label ∧
     b ∈ selected (transportation subs)
           (numbers (filter (λ b, bill_number b ∈ tracked_bills subs) bills)) bills)
  ∨ (label = housing_label ∧
     b ∈ selected (housing subs)
           (numbers (selected (transportation subs)
                       (numbers (filter (λ b, bill_number b ∈ tracked_bills subs) bills))
                       bills)
            ∪ numbers (filter (λ b, bill_number b ∈ tracked_bills subs) bills))
           bills).
Proof.
  unfold routed_to. rewrite route_bills_categories.
  setoid_rewrite elem_of_app. setoid_rewrite elem_of_app.
  setoid_rewrite elem_of_category.
  split.
  - intros (listed & [(-> & -> & _)|[(-> & -> & _)|(-> & -> & _)]] & Hb); auto.
  - intros [[-> Hb]|[[-> Hb]|[-> Hb]]]; eexists; (split; [|exact Hb]).
    + left. by destruct Hb.
    + right; left. by destruct Hb.
    + right; right. by destruct Hb.
Qed.

Lemma elem_of_selected (sub : Subscription) (matched : gset string)
    (bills : list Bill) (b : Bill) :
  b ∈ selected sub matched bills ↔
  recipients sub ≠ [] ∧ (bill_number b ∉ matched)
  ∧ matches_topics b (topics sub) = true ∧ b ∈ bills.
Proof.
  unfold selected. destruct (recipients sub) as [|r rs].
  - rewrite elem_of_nil. naive_solver.
  - rewrite list_elem_of_filter. naive_solver.
Qed.

Lemma labels_distinct :
  tracked_label ≠ transportation_label ∧ tracked_label ≠ housing_label
  ∧ transportation_label ≠ housing_label.
Proof. repeat split; discriminate. Qed.

(** C3. No label occurs twice in the routed dict, no identifier occurs
    under two labels, and every bill whose identifier is tracked is under
    the tracked-bills label, whatever the recipients are: so a tracked bill
    is in no topic category, and no bill is in two of them. *)
Theorem route_bills_one_category_per_bill (subs : Subscriptions) (bills : list Bill) :
  NoDup (_route_bills subs bills).*1
  ∧ (∀ label1 label2 b1 b2,
       routed_to (_route_bills subs bills) label1 b1 →
       routed_to (_route_bills subs bills) label2 b2 →
       bill_number b1 = bill_number b2 → label1 = label2)
  ∧ (∀ b, b ∈ bills → bill_number b ∈ tracked_bills subs →
       routed_to (_route_bills subs bills) tracked_label b
       ∧ ∀ label, routed_to (_route_bills subs bills) label b → label = tracked_label).
Proof.
  destruct labels_distinct as (Hl1 & Hl2 & Hl3).
  assert (Hexcl : ∀ label1 label2 b1 b2,
       routed_to (_route_bills subs bills) label1 b1 →
       routed_to (_route_bills subs bills) label2 b2 →
       bill_number b1 = bill_number b2 → label1 = label2).
  { intros label1 label2 b1 b2 H1 H2 Heq.
    apply routed_to_categories in H1, H2.
    set (T := filter _ bills) in *.
    set (R := selected (transportation subs) (numbers T) bills) in *.
    set (H := selected (housing subs) (numbers R ∪ numbers T) bills) in *.
    assert (HR : ∀ b, b ∈ R → bill_number b ∉ numbers T).
    { intros b Hb%elem_of_selected. tauto. }
    assert (HH : ∀ b, b ∈ H → bill_number b ∉ numbers R ∪ numbers T).
    { intros b Hb%elem_of_selected. tauto. }
    assert (Hin : ∀ X b, b ∈ X → bill_number b ∈ numbers X).
    { intros X b Hb. apply elem_of_numbers. eauto. }
    destruct H1 as [[-> H1]|[[-> H1]|[-> H1]]],
             H2 as [[-> H2]|[[-> H2]|[-> H2]]];
      try done; exfalso.
    - apply (HR b2 H2). rewrite <- Heq. by apply Hin.
    - apply (HH b2 H2). rewrite <- Heq. apply elem_of_union. right. by apply Hin.
    - apply (HR b1 H1). rewrite Heq. by apply Hin.
    - apply (HH b2 H2). rewrite <- Heq. apply elem_of_union. left. by apply Hin.
    - apply (HH b1 H1). rewrite Heq. apply elem_of_union. right. by apply Hin.
    - apply (HH b1 H1). rewrite Heq. apply elem_of_union. left. by apply Hin. }
  assert (Htracked : ∀ b, b ∈ bills → bill_number b ∈ tracked_bills subs →
            routed_to (_route_bills subs bills) tracked_label b).
  { intros b Hb Ht. apply routed_to_categories. left. split; [done|].
    by apply list_elem_of_filter. }
  split; [|split].
  - rewrite route_bills_categories.
    set (T := filter _ bills).
    set (R := selected (transportation subs) (numbers T) bills).
    set (H := selected (housing subs) (numbers R ∪ numbers T) bills).
    destruct T, R, H; simpl; repeat constructor; set_solver.
  - exact Hexcl.
  - intros b Hb Ht. split; [by apply Htracked|].
    intros label Hlabel. by apply (Hexcl label tracked_label b b Hlabel (Htracked b Hb Ht)).
Qed.

(** C4. A topic subscription without recipients gets no category, and
    claims nothing: with no transportation recipient, a bill that is not
    tracked and matches the housing topics is under the housing label when
    housing has a recipient, whether or not it matches the transportation
    topics too. *)
Theorem route_bills_skips_subscription_without_recipients
    (subs : Subscriptions) (bills : list Bill) :
  (recipients (transportation subs) = [] →
     (transportation_label ∉ (_route_bills subs bills).*1)
     ∧ ∀ b, ¬ routed_to (_route_bills subs bills) transportation_label b)
  ∧ (recipients (housing subs) = [] →
     (housing_label ∉ (_route_bills subs bills).*1)
     ∧ ∀ b, ¬ routed_to (_route_bills subs bills) housing_label b)
  ∧ (recipients (transportation subs) = [] → recipients (housing subs) ≠ [] →
     ∀ b, b ∈ bills → bill_number b ∉ tracked_bills subs →
       matches_topics b (topics (housing subs)) = true →
       routed_to (_route_bills subs bills) housing_label b).
Proof.
  destruct labels_distinct as (Hl1 & Hl2 & Hl3).
  assert (Hkeys : ∀ label, label ∈ (_route_bills subs bills).*1 →
            ∃ listed b, (label, listed) ∈ _route_bills subs bills ∧ b ∈ listed).
  { intros label ([l listed] & -> & Hin)%list_elem_of_fmap.
    exists listed. pose proof Hin as Hin'.
    rewrite route_bills_categories in Hin'.
    rewrite !elem_of_app, !elem_of_category in Hin'.
    destruct listed as [|b ?]; [naive_solver|]. exists b. split; [done|by left]. }
  split; [|split].
  - intros Hnone.
    assert (Hno : ∀ b, ¬ routed_to (_route_bills subs bills) transportation_label b).
    { intros b Hb. apply routed_to_categories in Hb.
      setoid_rewrite elem_of_selected in Hb. naive_solver. }
    split; [|done]. intros (listed & b & Hin & Hb)%Hkeys.
    apply (Hno b). by exists listed.
  - intros Hnone.
    assert (Hno : ∀ b, ¬ routed_to (_route_bills subs bills) housing_label b).
    { intros b Hb. apply routed_to_categories in Hb.
      setoid_rewrite elem_of_selected in Hb. naive_solver. }
    split; [|done]. intros (listed & b & Hin & Hb)%Hkeys.
    apply (Hno b). by exists listed.
  - intros Hnone Hsome b Hb Huntracked Hmatch.
    apply routed_to_categories. right; right. split; [done|].
    apply elem_of_selected. repeat split; try done.
    rewrite elem_of_union, !elem_of_numbers.
    intros [(b' & Hb' & Heq)|(b' & Hb' & Heq)].
    + apply elem_of_selected in Hb'. naive_solver.
    + apply list_elem_of_filter in Hb' as [Ht _]. congruence.
Qed.

Example route_bills_sample :
  _route_bills (sample_subscriptions [])
    [sample_bill "HB0001" FIRST ["Housing"] None;
     sample_bill "HB0002" FIRST ["Public Transportation"; "Affordable Housing"] None;
     sample_bill "HB0003" FIRST [] None]
  = [(tracked_label, [sample_bill "HB0001" FIRST ["Housing"] None]);
     (housing_label,
      [sample_bill "HB0002" FIRST ["Public Transportation"; "Affordable Housing"] None])].
Proof. vm_compute. reflexivity. Qed.

(** ** The record normalizer *)

Lemma bind_Ok {A B} (r : result A) (k : A → result B) (v : B) :
  r ≫= k = Ok v ↔ ∃ a, r = Ok a ∧ k a = Ok v.
Proof.
  destruct r as [a|e]; cbn.
  - split; [by exists a|]. by intros (a' & [= <-] & Hk).
  - split; [done|]. by intros (a' & [=] & _).
Qed.

Lemma new_Bill_fields (bill_number : pyval) (chamber : Chamber)
    (title sponsor : pyval) (next_reading : BillReading) (subjects : pyval)
    (hearing : option datetime) (name ilga_url : pyval) (b : BillObject) :
  new_Bill bill_number chamber title sponsor next_reading subjects hearing name ilga_url
  = Ok b →
  obj_bill_number b = bill_number ∧ obj_next_reading b = next_reading
  ∧ obj_committee_hearing_date b = hearing ∧ obj_committee_name b = name.
Proof.
  unfold new_Bill. intros (url & _ & [= <-])%bind_Ok. done.
Qed.

Section NormalizerFacts.
Variable fromisoformat : string → option datetime.

(** What a parsed record owes to its action history. *)
Lemma parse_bill_actions (bill_data : pyval) (b : BillObject) :
  _parse_bill fromisoformat bill_data = Some b →
  ∃ actions,
    py_get bill_data "actions" (PList []) = Ok actions
    ∧ reading_stage actions = Ok (obj_next_reading b)
    ∧ committee_info fromisoformat actions
      = Ok (obj_committee_hearing_date b, obj_committee_name b).
Proof.
  unfold _parse_bill, try_except.
  destruct (parse_bill_body fromisoformat bill_data) as [[b'|]|e] eqn:Hbody;
    intros [= <-].
  unfold parse_bill_body in Hbody.
  apply bind_Ok in Hbody as (id1 & _ & Hbody).
  apply bind_Ok in Hbody as (identifier & _ & Hbody).
  destruct (negb (truthy identifier)); [discriminate|].
  apply bind_Ok in Hbody as (chamber & _ & Hbody).
  apply bind_Ok in Hbody as (title & _ & Hbody).
  apply bind_Ok in Hbody as (sponsor & _ & Hbody).
  apply bind_Ok in Hbody as (subjects & _ & Hbody).
  apply bind_Ok in Hbody as (actions & Hactions & Hbody).
  apply bind_Ok in Hbody as (stage & Hstage & Hbody).
  apply bind_Ok in Hbody as ([date name] & Hcommittee & Hbody).
  apply bind_Ok in Hbody as (url & _ & Hbody).
  apply bind_Ok in Hbody as (bill & Hbill & [= ->]).
  apply new_Bill_fields in Hbill as (_ & -> & -> & ->).
  by exists actions.
Qed.

(** An action that mentions neither reading is passed over. *)
Lemma scan_reading_skip (action : pyval) (description : string)
    (earlier : list pyval) :
  py_get action "description" (PStr "") = Ok (PStr description) →
  contains "third reading" (lower description) = false →
  contains "second reading" (lower description) = false →
  scan_reading (action :: earlier) = scan_reading earlier.
Proof. intros Hget H3 H2. cbn. rewrite Hget. cbn. by rewrite H3, H2. Qed.

Lemma scan_reading_second (action : pyval) (description : string)
    (earlier : list pyval) :
  py_get action "description" (PStr "") = Ok (PStr description) →
  contains "third reading" (lower description) = false →
  contains "second reading" (lower description) = true →
  scan_reading (action :: earlier) = Ok SECOND.
Proof. intros Hget H3 H2. cbn. rewrite Hget. cbn. by rewrite H3, H2. Qed.

(** C1, as the code has it.  For the history First Reading, Second
    Reading, First Reading the stage is SECOND: the scan from the most
    recent action passes over the re-referral, which mentions neither a
    second nor a third reading, and stops at the second reading. *)
Theorem rereferral_resolves_to_second (record : pyval)
    (a1 a2 a3 : gmap string pyval) :
  py_get record "actions" (PList []) = Ok (PList [PDict a1; PDict a2; PDict a3]) →
  a1 !! "description" = Some (PStr "First Reading") →
  a2 !! "description" = Some (PStr "Second Reading") →
  a3 !! "description" = Some (PStr "First Reading") →
  reading_stage (PList [PDict a1; PDict a2; PDict a3]) = Ok SECOND
  ∧ ∀ b, _parse_bill fromisoformat record = Some b → obj_next_reading b = SECOND.
Proof.
  intros Hactions H1 H2 H3.
  assert (Hstage : reading_stage (PList [PDict a1; PDict a2; PDict a3]) = Ok SECOND).
  { unfold reading_stage, py_reversed. cbn [py_iter mbind result_bind].
    change (reverse [PDict a1; PDict a2; PDict a3])
      with [PDict a3; PDict a2; PDict a1].
    rewrite (scan_reading_skip _ "First Reading") by (cbn; by rewrite ?H3).
    apply (scan_reading_second _ "Second Reading"); cbn; by rewrite ?H2. }
  split; [done|].
  intros b (actions & Hget & Hb & _)%parse_bill_actions.
  rewrite Hactions in Hget. injection Hget as <-.
  rewrite Hstage in Hb. by injection Hb.
Qed.
End NormalizerFacts.

Lemma rereferral_resolves_to_second_witness :
  ∃ b, _parse_bill fromisoformat_basic rereferral_record = Some b
       ∧ obj_next_reading b = SECOND.
Proof.
  eexists. split; [reflexivity|].
  refine (proj2 (rereferral_resolves_to_second fromisoformat_basic rereferral_record
                   _ _ _ _ _ _ _) _ _); reflexivity.
Defined.

(** C1 as stated fails: the record of the re-referred bill is normalized,
    and its stage is not FIRST. *)
Lemma rereferral_is_not_first :
  ∃ b, _parse_bill fromisoformat_basic rereferral_record = Some b
       ∧ obj_next_reading b ≠ FIRST.
Proof. eexists. split; [reflexivity|]. discriminate. Qed.

(** ** Committee hearing *)

Lemma append_empty_r (s : string) : s +:+ "" = s.
Proof.
  induction s as [|c s IH]; [done|].
  change (String c s +:+ "") with (String c (s +:+ "")). by rewrite IH.
Qed.

(** Replacing a one-character pattern that occurs only at the end. *)
Lemma replace_trailing (c : ascii) (new s : string) :
  contains (String c "") s = false →
  replace (String c "") new (s +:+ String c "") = s +:+ new.
Proof.
  unfold replace. induction s as [|d s IH]; intros Hno.
  - change ("" +:+ String c "") with (String c "").
    cbn [replace_scan startswith]. rewrite Ascii.eqb_refl.
    cbn [andb String.length Nat.sub replace_scan]. apply append_empty_r.
  - cbn in Hno. apply orb_false_iff in Hno as [Hd Hrest].
    rewrite andb_true_r in Hd.
    change (String d s +:+ ?x) with (String d (s +:+ x)).
    cbn [replace_scan startswith]. rewrite Hd. cbn [andb]. by rewrite IH.
Qed.

Section CommitteeFacts.
Variable fromisoformat : string → option datetime.

(** An action that does not mention both words is passed over. *)
Lemma scan_committee_skip (earlier later : list pyval) :
  Forall (λ a, ∃ d, py_get a "description" (PStr "") = Ok (PStr d)
               ∧ contains "committee" (lower d) && contains "hearing" (lower d) = false)
         earlier →
  scan_committee fromisoformat (earlier ++ later) = scan_committee fromisoformat later.
Proof.
  induction 1 as [|a earlier (d & Hget & Hno) _ IH]; [done|].
  cbn [app scan_committee]. rewrite Hget. cbn. by rewrite Hno.
Qed.

(** C9. The committee hearing comes from the first action, earliest first,
    whose lower-cased description contains both "committee" and "hearing":
    its [date], with "Z" replaced by "+00:00", is parsed into the hearing
    date, and the [name] of its [organization] is the committee name.  A
    date that does not parse leaves the hearing date unset and the name
    in place, and the actions after the match play no part. *)
Theorem committee_hearing_from_first_match
    (earlier later : list pyval) (action org : gmap string pyval)
    (description : string) :
  Forall (λ a, ∃ d, py_get a "description" (PStr "") = Ok (PStr d)
               ∧ contains "committee" (lower d) && contains "hearing" (lower d) = false)
         earlier →
  action !! "description" = Some (PStr description) →
  contains "committee" (lower description) = true →
  contains "hearing" (lower description) = true →
  py_get (PDict action) "organization" (PDict ∅) = Ok (PDict org) →
  committee_info fromisoformat (PList (earlier ++ PDict action :: later))
  = Ok (hearing_date fromisoformat (default PNone (action !! "date")),
        default PNone (org !! "name"))
  ∧ (∀ date, action !! "date" = Some (PStr date) → date ≠ "" →
       hearing_date fromisoformat (default PNone (action !! "date"))
       = fromisoformat (replace "Z" "+00:00" date))
  ∧ (∀ stamp, contains "Z" stamp = false →
       replace "Z" "+00:00" (stamp +:+ "Z") = stamp +:+ "+00:00")
  ∧ (∀ date, action !! "date" = Some (PStr date) →
       fromisoformat (replace "Z" "+00:00" date) = None →
       committee_info fromisoformat (PList (earlier ++ PDict action :: later))
       = Ok (None, default PNone (org !! "name")))
  ∧ (∀ record b,
       py_get record "actions" (PList []) = Ok (PList (earlier ++ PDict action :: later)) →
       _parse_bill fromisoformat record = Some b →
       obj_committee_hearing_date b
       = hearing_date fromisoformat (default PNone (action !! "date"))
       ∧ obj_committee_name b = default PNone (org !! "name")).
Proof.
  intros Hearlier Hdesc Hcommittee Hhearing Horg.
  assert (Hinfo :
    committee_info fromisoformat (PList (earlier ++ PDict action :: later))
    = Ok (hearing_date fromisoformat (default PNone (action !! "date")),
          default PNone (org !! "name"))).
  { unfold committee_info. cbn [py_iter mbind result_bind].
    rewrite scan_committee_skip by done.
    cbn [scan_committee py_get]. rewrite Hdesc. cbn.
    rewrite Hcommittee, Hhearing. cbn.
    cbn in Horg. destruct (action !! "organization") as [o|] eqn:Ho.
    - injection Horg as ->. cbn. by destruct (action !! "date").
    - injection Horg as <-. cbn. by destruct (action !! "date"). }
  split; [exact Hinfo|]. split; [|split; [|split]].
  - intros date -> Hne. unfold hearing_date. cbn.
    destruct date; [done|reflexivity].
  - intros stamp Hno. by apply replace_trailing.
  - intros date Hdate Hfail. rewrite Hinfo, Hdate. do 2 f_equal.
    unfold hearing_date. change (default PNone (Some (PStr date))) with (PStr date).
    cbv iota. rewrite Hfail. by destruct (truthy _).
  - intros record b Hactions (actions & Hget & _ & Hb)%parse_bill_actions.
    rewrite Hactions in Hget. injection Hget as <-.
    rewrite Hinfo in Hb. by injection Hb as <- <-.
Qed.
End CommitteeFacts.

Lemma committee_hearing_from_first_match_witness :
  committee_info fromisoformat_basic
    (PList ([action "First Reading" "2025-11-01"]
            ++ PDict (hearing_action (PStr "2025-11-20T15:00:00Z"))
            :: [action "Committee Hearing Rescheduled" "2025-12-01"]))
  = Ok (fromisoformat_basic "2025-11-20T15:00:00+00:00", PStr "Housing").
Proof.
  refine (proj1 (committee_hearing_from_first_match fromisoformat_basic
    [action "First Reading" "2025-11-01"]
    [action "Committee Hearing Rescheduled" "2025-12-01"]
    (hearing_action (PStr "2025-11-20T15:00:00Z")) {[ "name" := PStr "Housing" ]}
    "Assigned to Housing Committee Hearing" _ _ _ _ _)).
  - constructor; [|constructor]. eexists. split; reflexivity.
  - reflexivity.
  - reflexivity.
  - reflexivity.
  - reflexivity.
Defined.

Example hearing_with_zone_is_parsed :
  ∃ b, _parse_bill fromisoformat_basic (hearing_record (PStr "2025-11-20T15:00:00Z")) = Some b
       ∧ obj_chamber b = SENATE
       ∧ obj_committee_hearing_date b
         = Some {| wall := 63899247600000000; utcoffset := Some 0 |}
       ∧ obj_committee_name b = PStr "Housing".
Proof. eexists. split; [reflexivity|]. repeat split. Qed.

Example hearing_with_bad_date_keeps_the_name :
  ∃ b, _parse_bill fromisoformat_basic (hearing_record (PStr "next Tuesday")) = Some b
       ∧ obj_committee_hearing_date b = None
       ∧ obj_committee_name b = PStr "Housing".
Proof. eexists. split; [reflexivity|]. repeat split. Qed.

(** ** The corpus loader *)

Section LoaderFacts.
Variable fromisoformat : string → option datetime.

(** A missing data directory yields no bill. *)
Lemma parse_data_directory_missing :
  parse_data_directory fromisoformat None = Ok [].
Proof. reflexivity. Qed.

(** A record whose normalization raises is skipped. *)
Lemma parse_bill_raise_is_skip (bill_data : pyval) (e : exn) :
  parse_bill_body fromisoformat bill_data = Raise e →
  _parse_bill fromisoformat bill_data = None.
Proof. unfold _parse_bill. by intros ->. Qed.

(** A file that cannot be opened or decoded appends nothing, and neither
    does [metadata.json]. *)
Lemma parse_file_unreadable (name : string) (e : exn) :
  parse_file fromisoformat {| file_name := name; loaded := Raise e |} = [].
Proof. unfold parse_file. cbn. by destruct (String.eqb _ _). Qed.

Lemma parse_file_metadata (content : result pyval) :
  parse_file fromisoformat {| file_name := "metadata.json"; loaded := content |} = [].
Proof. reflexivity. Qed.

(** The files around an unreadable one are processed all the same. *)
Lemma unreadable_file_is_skipped (before after : list json_file)
    (name : string) (e : exn) :
  parse_data_directory fromisoformat
    (Some (before ++ {| file_name := name; loaded := Raise e |} :: after))
  = parse_data_directory fromisoformat (Some (before ++ after)).
Proof.
  unfold parse_data_directory.
  by rewrite !bind_app, bind_cons, parse_file_unreadable.
Qed.

(** The loader returns as soon as every identifier it collected can be
    hashed, which strings can. *)
Lemma dedup_hashable (seen : gset hkey) (acc bills : list BillObject) :
  Forall (λ b, ∃ k, py_hash (obj_bill_number b) = Ok k) bills →
  ∃ st, for_each (dedup_step (λ b, py_hash (obj_bill_number b))) (seen, acc) bills
        = Ok st.
Proof.
  intros Hall. revert seen acc.
  induction Hall as [|b bills [k Hk] _ IH]; intros seen acc; [by eexists|].
  assert (Hstep : dedup_step (λ b, py_hash (obj_bill_number b)) (seen, acc) b
                  = Ok (if bool_decide (k ∈ seen) then (seen, acc)
                        else ({[k]} ∪ seen, acc ++ [b]))).
  { unfold dedup_step. rewrite Hk. cbn. by case_bool_decide. }
  change (for_each ?f ?st (b :: bills)) with (st' ← f st b; for_each f st' bills).
  rewrite Hstep. cbn [mbind result_bind]. case_bool_decide; apply IH.
Qed.

Lemma parse_data_directory_hashable (bill_files : list json_file) :
  Forall (λ b, ∃ k, py_hash (obj_bill_number b) = Ok k)
         (bill_files ≫= parse_file fromisoformat) →
  ∃ unique, parse_data_directory fromisoformat (Some bill_files) = Ok unique.
Proof.
  intros Hall. unfold parse_data_directory, deduplicate.
  destruct (dedup_hashable ∅ [] _ Hall) as [st ->]. by eexists.
Qed.
End LoaderFacts.

(** C8 at a record whose identifier is a JSON array.  With a source URL
    the normalizer builds the Bill without touching the identifier; the
    deduplication loop, outside every [try], then tests the list for
    membership in a set, and the [TypeError] leaves the loader although the
    other file is sound. *)
Theorem array_identifier_stops_the_loader :
  (∃ b, _parse_bill fromisoformat_basic array_identifier_record = Some b
        ∧ obj_bill_number b = PList [PStr "HB1"])
  ∧ parse_data_directory fromisoformat_basic
      (Some [ {| file_name := "HB1234.json"; loaded := Ok housing_record |};
              {| file_name := "HB1.json"; loaded := Ok array_identifier_record |} ])
    = Raise TypeError.
Proof. split; [eexists; split; reflexivity|reflexivity]. Qed.

Example loader_skips_what_it_cannot_read :
  ∃ b, parse_data_directory fromisoformat_basic
         (Some [ {| file_name := "broken.json"; loaded := Raise JSONDecodeError |};
                 {| file_name := "metadata.json"; loaded := Ok housing_record |};
                 {| file_name := "bills.json";
                    loaded := Ok (PList [PInt 7; housing_record; rereferral_record]) |} ])
       = Ok [b]
       ∧ obj_bill_number b = PStr "HB1234" ∧ obj_next_reading b = FIRST.
Proof. eexists. split; [reflexivity|]. split; reflexivity. Qed.

(** The end-to-end scenario of the specification. *)
Example housing_record_end_to_end :
  ∃ b bill,
    parse_data_directory fromisoformat_basic
      (Some [ {| file_name := "HB1234.json"; loaded := Ok housing_record |} ]) = Ok [b]
    ∧ as_Bill b = Some bill
    ∧ next_reading bill = FIRST
    ∧ ilga_url bill = "https://www.ilga.gov/legislation/BillStatus?DocTypeID=HB&DocNum=1234"
    ∧ actionable (datetime_now 0) [bill] = Ok [bill]
    ∧ _route_bills
        {| transportation := {| topics := ["Transportation"]; recipients := [] |};
           housing := {| topics := ["Housing"; "Zoning"];
                         recipients := ["housing@example.org"] |};
           all_recipients := []; tracked_bills := [] |}
        [bill]
      = [(housing_label, [bill])].
Proof.
  do 2 eexists. split; [reflexivity|]. split; [reflexivity|].
  repeat split.
Qed.

(** * Further properties of the code *)

(** ** Field resolution in the normalizer *)

Lemma new_Bill_Ok (bill_number : pyval) (chamber : Chamber)
    (title sponsor : pyval) (next_reading : BillReading) (subjects : pyval)
    (hearing : option datetime) (name ilga_url : pyval) (b : BillObject) :
  new_Bill bill_number chamber title sponsor next_reading subjects hearing name ilga_url
  = Ok b →
  obj_bill_number b = bill_number ∧ obj_chamber b = chamber
  ∧ obj_title b = title ∧ obj_sponsor b = sponsor
  ∧ obj_subjects b = (if truthy subjects then subjects else PList [])
  ∧ (if truthy ilga_url then obj_ilga_url b = ilga_url
     else ∃ s, bill_number = PStr s
               ∧ obj_ilga_url b = PStr (get_bill_status_url chamber s)).
Proof.
  unfold new_Bill. intros (url & Hurl & [= <-])%bind_Ok. cbn.
  repeat split. destruct (truthy ilga_url).
  - by injection Hurl.
  - destruct bill_number; try discriminate Hurl. injection Hurl as <-. by eexists.
Qed.

Section FieldFacts.
Variable fromisoformat : string → option datetime.

(** A normalized record, taken apart: each field is what its step of
    [_parse_bill] computed. *)
Lemma parse_bill_steps (bill_data : pyval) (b : BillObject) :
  _parse_bill fromisoformat bill_data = Some b →
  ∃ entries subjects url,
    bill_data = PDict entries
    ∧ truthy (obj_bill_number b) = true
    ∧ obj_bill_number b
      = (if truthy (default PNone (entries !! "identifier"))
         then default PNone (entries !! "identifier")
         else default PNone (entries !! "bill_id"))
    ∧ parse_chamber bill_data = Ok (obj_chamber b)
    ∧ parse_title bill_data = Ok (obj_title b)
    ∧ parse_sponsor bill_data = Ok (obj_sponsor b)
    ∧ parse_subjects bill_data = Ok subjects
    ∧ obj_subjects b = (if truthy subjects then subjects else PList [])
    ∧ parse_source_url bill_data = Ok url
    ∧ (if truthy url then obj_ilga_url b = url
       else ∃ s, obj_bill_number b = PStr s
                 ∧ obj_ilga_url b = PStr (get_bill_status_url (obj_chamber b) s)).
Proof.
  unfold _parse_bill, try_except.
  destruct (parse_bill_body fromisoformat bill_data) as [[b'|]|e] eqn:Hbody;
    intros [= <-].
  unfold parse_bill_body in Hbody.
  apply bind_Ok in Hbody as (id1 & Hid1 & Hbody).
  apply bind_Ok in Hbody as (identifier & Hid & Hbody).
  destruct bill_data as [| | | |?|entries]; try discriminate Hid1.
  cbn in Hid1. injection Hid1 as <-.
  destruct (truthy identifier) eqn:Htruthy; [|discriminate]. cbn [negb] in Hbody.
  apply bind_Ok in Hbody as (chamber & Hchamber & Hbody).
  apply bind_Ok in Hbody as (title & Htitle & Hbody).
  apply bind_Ok in Hbody as (sponsor & Hsponsor & Hbody).
  apply bind_Ok in Hbody as (subjects & Hsubjects & Hbody).
  apply bind_Ok in Hbody as (actions & Hactions & Hbody).
  apply bind_Ok in Hbody as (stage & Hstage & Hbody).
  apply bind_Ok in Hbody as ([date name] & Hcommittee & Hbody).
  apply bind_Ok in Hbody as (url & Hurl & Hbody).
  apply bind_Ok in Hbody as (bill & Hbill & [= ->]).
  apply new_Bill_Ok in Hbill as (Hn & Hc & Ht & Hs & Hsub & Hu).
  rewrite Hn, Hc, Ht, Hs.
  exists entries, subjects, url. repeat split; try done.
  change (match entries !! "identifier" with Some v => v | None => PNone end)
    with (default PNone (entries !! "identifier")) in *.
  destruct (truthy (default PNone (entries !! "identifier"))) eqn:Hfirst.
  - by injection Hid.
  - cbn in Hid. by injection Hid.
Qed.

(** X1. The identifier of a normalized record is the value of [identifier]
    when that is truthy and the value of [bill_id] otherwise, and it is
    truthy: a record that is not a JSON object, or has neither, is
    skipped. *)
Theorem parsed_bill_identifier (bill_data : pyval) (b : BillObject) :
  _parse_bill fromisoformat bill_data = Some b →
  ∃ entries,
    bill_data = PDict entries
    ∧ truthy (obj_bill_number b) = true
    ∧ obj_bill_number b
      = (if truthy (default PNone (entries !! "identifier"))
         then default PNone (entries !! "identifier")
         else default PNone (entries !! "bill_id")).
Proof.
  intros (entries & _ & _ & -> & Htruthy & Hid & _)%parse_bill_steps.
  by exists entries.
Qed.

(** X2. The chamber of a normalized record is SENATE exactly when the
    classification of [from_organization], lower-cased, contains "upper"
    or "senate"; both default to an empty value when absent, and a record
    where one of them is present with another type is skipped. *)
Theorem parsed_bill_chamber (bill_data : pyval) (b : BillObject) :
  _parse_bill fromisoformat bill_data = Some b →
  ∃ org classification,
    py_get bill_data "from_organization" (PDict ∅) = Ok (PDict org)
    ∧ default (PStr "") (org !! "classification") = PStr classification
    ∧ (obj_chamber b = SENATE ↔
       substring_of "upper" (lower classification)
       ∨ substring_of "senate" (lower classification))
    ∧ (obj_chamber b = HOUSE ↔
       ¬ substring_of "upper" (lower classification)
       ∧ ¬ substring_of "senate" (lower classification)).
Proof.
  intros (entries & _ & _ & -> & _ & _ & Hchamber & _)%parse_bill_steps.
  unfold parse_chamber in Hchamber.
  apply bind_Ok in Hchamber as (org & Horg & Hchamber).
  apply bind_Ok in Hchamber as (cls & Hcls & Hchamber).
  apply bind_Ok in Hchamber as (low & Hlow & [= Hc]).
  destruct org as [| | | |?|org]; try discriminate Hcls.
  destruct cls as [| | |classification| |]; try discriminate Hlow.
  cbn in Hcls, Hlow. injection Hcls as Hcls. injection Hlow as <-.
  exists org, classification. split; [done|]. split; [done|].
  rewrite <- !contains_spec, <- Hc.
  destruct (contains "upper" _), (contains "senate" _); cbn; split; naive_solver.
Qed.

(** X3. The title of a normalized record: the first element when [title] is
    a non-empty list, "Unknown" when it is an empty list or absent, and
    the value itself otherwise. *)
Theorem parsed_bill_title (bill_data : pyval) (b : BillObject) :
  _parse_bill fromisoformat bill_data = Some b →
  ∃ entries,
    bill_data = PDict entries
    ∧ (entries !! "title" = None → obj_title b = PStr "Unknown")
    ∧ (entries !! "title" = Some (PList []) → obj_title b = PStr "Unknown")
    ∧ (∀ first others, entries !! "title" = Some (PList (first :: others)) →
         obj_title b = first)
    ∧ (∀ t, entries !! "title" = Some t → (∀ items, t ≠ PList items) →
         obj_title b = t).
Proof.
  intros (entries & _ & _ & -> & _ & _ & _ & Htitle & _)%parse_bill_steps.
  exists entries. split; [done|].
  unfold parse_title in Htitle. cbn in Htitle. injection Htitle as <-.
  repeat split.
  - by intros ->.
  - by intros ->.
  - by intros first others ->.
  - intros t -> Hnot. destruct t; try done. by destruct (Hnot items).
Qed.

Lemma first_primary_find (sponsors : list pyval) (fallback chosen : pyval) :
  first_primary sponsors fallback = Ok chosen →
  chosen = from_option snd fallback (list_find (λ s, primary_flag s = true) sponsors).
Proof.
  induction sponsors as [|s rest IH]; cbn [first_primary].
  - by intros [= <-].
  - intros (primary & Hget & Hrest)%bind_Ok.
    destruct s as [| | | |?|entries]; try discriminate Hget.
    cbn in Hget. injection Hget as <-.
    cbn [list_find primary_flag].
    change (match entries !! "primary" with Some v => v | None => PNone end)
      with (default PNone (entries !! "primary")) in *.
    destruct (truthy (default PNone (entries !! "primary"))) eqn:Hflag.
    + rewrite decide_True by done. by injection Hrest as <-.
    + rewrite decide_False by done.
      apply IH in Hrest as ->.
      by destruct (list_find _ rest) as [[i x]|].
Qed.

(** X4. The sponsor of a normalized record is "Unknown" when [sponsorships]
    is absent or an empty list; otherwise it is the [name] ("Unknown"
    when the key is missing) of the first sponsorship whose [primary] is
    truthy, and of the first sponsorship when none is. *)
Theorem parsed_bill_sponsor (bill_data : pyval) (b : BillObject) :
  _parse_bill fromisoformat bill_data = Some b →
  (py_get bill_data "sponsorships" (PList []) = Ok (PList []) →
     obj_sponsor b = PStr "Unknown")
  ∧ (∀ first others,
       py_get bill_data "sponsorships" (PList []) = Ok (PList (first :: others)) →
       py_get (chosen_sponsorship first others) "name" (PStr "Unknown")
       = Ok (obj_sponsor b)).
Proof.
  intros (entries & _ & _ & -> & _ & _ & _ & _ & Hsponsor & _)%parse_bill_steps.
  unfold parse_sponsor in Hsponsor.
  apply bind_Ok in Hsponsor as (sponsors & Hget & Hsponsor).
  split.
  - intros Hnone. rewrite Hget in Hnone. injection Hnone as ->.
    cbn in Hsponsor. by injection Hsponsor.
  - intros first others Hsome. rewrite Hget in Hsome. injection Hsome as ->.
    cbn [truthy py_iter py_first mbind result_bind] in Hsponsor.
    apply bind_Ok in Hsponsor as (chosen & Hchosen & Hname).
    apply first_primary_find in Hchosen as ->. done.
Qed.

(** X5. The subjects of a normalized record: a str is wrapped into a
    one-element list, even when empty; any other value is kept when truthy
    and replaced by the empty list when falsy or absent. *)
Theorem parsed_bill_subjects (bill_data : pyval) (b : BillObject) :
  _parse_bill fromisoformat bill_data = Some b →
  ∃ entries,
    bill_data = PDict entries
    ∧ (∀ s, entries !! "subject" = Some (PStr s) → obj_subjects b = PList [PStr s])
    ∧ (∀ v, entries !! "subject" = Some v → (∀ s, v ≠ PStr s) →
         obj_subjects b = if truthy v then v else PList [])
    ∧ (entries !! "subject" = None → obj_subjects b = PList [])
    ∧ (∀ s, obj_subjects b ≠ PStr s)
    ∧ (truthy (obj_subjects b) = true ∨ obj_subjects b = PList []).
Proof.
  intros (entries & subjects & _ & -> & _ & _ & _ & _ & _ & Hsub & -> & _)%parse_bill_steps.
  exists entries. split; [done|].
  unfold parse_subjects in Hsub. cbn in Hsub. injection Hsub as <-.
  repeat split.
  - by intros s ->.
  - intros v -> Hnot. destruct v; try done. by destruct (Hnot s).
  - by intros ->.
  - intros s. destruct (entries !! "subject") as [[| | |?|[|??]|?]|]; cbn; try done.
    + by destruct b0.
    + by destruct (negb _).
    + by destruct (negb _).
  - destruct (entries !! "subject") as [v|]; [|by right].
    destruct v; cbn; auto.
    + destruct b0; auto.
    + destruct (negb (n =? 0)) eqn:Hn; rewrite ?Hn; auto.
    + destruct items; auto.
    + destruct (negb (bool_decide (dom entries0 = ∅))) eqn:Hd; rewrite ?Hd; auto.
Qed.

(** X6. The status URL of a normalized record is never falsy: it is the
    [url] of the first source when that is truthy; otherwise the identifier
    is a str and the URL is the one [get_bill_status_url] builds from it
    and the chamber. *)
Theorem parsed_bill_url (bill_data : pyval) (b : BillObject) :
  _parse_bill fromisoformat bill_data = Some b →
  truthy (obj_ilga_url b) = true
  ∧ ∃ url,
      parse_source_url bill_data = Ok url
      ∧ (truthy url = true → obj_ilga_url b = url)
      ∧ (truthy url = false →
           ∃ number, obj_bill_number b = PStr number
             ∧ obj_ilga_url b = PStr (get_bill_status_url (obj_chamber b) number)).
Proof.
  intros (entries & _ & url & -> & _ & _ & _ & _ & _ & _ & _ & Hurl & Hb)%parse_bill_steps.
  destruct (truthy url) eqn:Htruthy.
  - split; [by rewrite Hb|]. exists url. split; [done|]. split; [by intros _|]. congruence.
  - destruct Hb as (number & Hn & Hu). split.
    + rewrite Hu. by destruct (obj_chamber b).
    + exists url. split; [done|]. split; [congruence|]. intros _. by exists number.
Qed.

(** X7. A record that holds an identifier string and none of the other keys
    is normalized, with every field at its default: House, "Unknown" title
    and sponsor, first reading, no subject, no hearing, and the status URL
    built from the identifier. *)
Theorem bare_record_gets_defaults (entries : gmap string pyval) (number : string) :
  entries !! "identifier" = Some (PStr number) → number ≠ "" →
  entries !! "from_organization" = None → entries !! "title" = None →
  entries !! "sponsorships" = None → entries !! "subject" = None →
  entries !! "actions" = None → entries !! "sources" = None →
  _parse_bill fromisoformat (PDict entries)
  = Some {| obj_bill_number := PStr number;
            obj_chamber := HOUSE;
            obj_title := PStr "Unknown";
            obj_sponsor := PStr "Unknown";
            obj_next_reading := FIRST;
            obj_subjects := PList [];
            obj_committee_hearing_date := None;
            obj_committee_name := PNone;
            obj_ilga_url := PStr (get_bill_status_url HOUSE number) |}.
Proof.
  intros Hid Hne Horg Htitle Hsponsors Hsubject Hactions Hsources.
  unfold _parse_bill, parse_bill_body, parse_chamber, parse_title, parse_sponsor,
    parse_subjects, parse_source_url, py_get.
  rewrite Hid, Horg, Htitle, Hsponsors, Hsubject, Hactions, Hsources.
  cbn [mbind result_bind truthy negb].
  destruct number as [|c number]; [done|]. reflexivity.
Qed.
End FieldFacts.

Lemma parsed_bill_identifier_witness :
  ∃ b, _parse_bill fromisoformat_basic senate_record = Some b
       ∧ obj_bill_number b = PStr "SB 2111".
Proof.
  eexists. split; [reflexivity|].
  destruct (parsed_bill_identifier fromisoformat_basic senate_record _ eq_refl)
    as (entries & [= <-] & _ & ->).
  reflexivity.
Defined.

Lemma parsed_bill_chamber_witness :
  ∃ b, _parse_bill fromisoformat_basic senate_record = Some b
       ∧ obj_chamber b = SENATE.
Proof.
  eexists. split; [reflexivity|].
  destruct (parsed_bill_chamber fromisoformat_basic senate_record _ eq_refl)
    as (org & classification & [= <-] & [= <-] & Hsenate & _).
  apply Hsenate. left. by exists "", "".
Defined.

Lemma parsed_bill_title_witness :
  ∃ b, _parse_bill fromisoformat_basic senate_record = Some b
       ∧ obj_title b = PStr "TRANSIT-GOVERNANCE".
Proof.
  eexists. split; [reflexivity|].
  destruct (parsed_bill_title fromisoformat_basic senate_record _ eq_refl)
    as (entries & [= <-] & _ & _ & Hfirst & _).
  eapply Hfirst. reflexivity.
Defined.

Lemma parsed_bill_sponsor_witness :
  ∃ b, _parse_bill fromisoformat_basic senate_record = Some b
       ∧ py_get (chosen_sponsorship (sponsorship "Ann Cosponsor" false)
                   [sponsorship "Ram Primary" true])
                "name" (PStr "Unknown")
         = Ok (obj_sponsor b).
Proof.
  eexists. split; [reflexivity|].
  apply (proj2 (parsed_bill_sponsor fromisoformat_basic senate_record _ eq_refl)).
  reflexivity.
Defined.

Lemma parsed_bill_subjects_witness :
  ∃ b, _parse_bill fromisoformat_basic housing_record = Some b
       ∧ obj_subjects b = PList [PStr "Affordable Housing"].
Proof.
  eexists. split; [reflexivity|].
  destruct (parsed_bill_subjects fromisoformat_basic housing_record _ eq_refl)
    as (entries & [= <-] & Hstr & _).
  apply Hstr. reflexivity.
Defined.

Lemma parsed_bill_url_witness :
  ∃ b, _parse_bill fromisoformat_basic housing_record = Some b
       ∧ truthy (obj_ilga_url b) = true.
Proof.
  eexists. split; [reflexivity|].
  apply (parsed_bill_url fromisoformat_basic housing_record). reflexivity.
Defined.

Lemma bare_record_gets_defaults_witness :
  ∃ b, _parse_bill fromisoformat_basic
         (PDict {[ "identifier" := PStr "HB0042"; "session" := PStr "104th" ]}) = Some b
       ∧ obj_ilga_url b
         = PStr "https://www.ilga.gov/legislation/BillStatus?DocTypeID=HB&DocNum=0042".
Proof.
  eexists. split.
  - apply (bare_record_gets_defaults fromisoformat_basic _ "HB0042");
      [reflexivity|discriminate|reflexivity..].
  - reflexivity.
Defined.

(** ** The reading stage *)

Lemma scan_reading_first (recent_first : list pyval) :
  scan_reading recent_first = Ok FIRST ↔ Forall mentions_no_reading recent_first.
Proof.
  induction recent_first as [|a rest IH]; cbn [scan_reading].
  - split; [constructor|done].
  - split.
    + intros (description & Hget & Hscan)%bind_Ok.
      apply bind_Ok in Hscan as (desc & Hlow & Hscan).
      destruct description as [| | |d| |]; try discriminate Hlow.
      injection Hlow as <-.
      destruct (contains "third reading" (lower d)) eqn:H3; [discriminate|].
      destruct (contains "second reading" (lower d)) eqn:H2; [discriminate|].
      constructor; [by exists d|by apply IH].
    + intros Hall. apply Forall_cons in Hall as [(d & Hget & H3 & H2) Hrest].
      rewrite Hget. cbn. rewrite H3, H2. by apply IH.
Qed.

Lemma scan_reading_stop (recent_first : list pyval) (stage : BillReading) :
  stage ≠ FIRST →
  scan_reading recent_first = Ok stage ↔
  ∃ later a earlier description,
    recent_first = later ++ a :: earlier
    ∧ Forall mentions_no_reading later
    ∧ py_get a "description" (PStr "") = Ok (PStr description)
    ∧ (if contains "third reading" (lower description) then stage = THIRD
       else contains "second reading" (lower description) = true ∧ stage = SECOND).
Proof.
  intros Hstage. induction recent_first as [|a rest IH]; cbn [scan_reading].
  - split; [by intros [= <-]|]. intros (later & a & ? & ? & Heq & _).
    by destruct later.
  - split.
    + intros (description & Hget & Hscan)%bind_Ok.
      apply bind_Ok in Hscan as (desc & Hlow & Hscan).
      destruct description as [| | |d| |]; try discriminate Hlow.
      injection Hlow as <-.
      destruct (contains "third reading" (lower d)) eqn:H3.
      { exists [], a, rest, d. rewrite H3. repeat split; [constructor|done|].
        by injection Hscan. }
      destruct (contains "second reading" (lower d)) eqn:H2.
      { exists [], a, rest, d. rewrite H3, H2. repeat split; [constructor|done|].
        by injection Hscan. }
      apply IH in Hscan as (later & a' & earlier & d' & -> & Hlater & Hget' & Hd').
      exists (a :: later), a', earlier, d'. repeat split; try done.
      constructor; [by exists d|done].
    + intros (later & a' & earlier & d' & Heq & Hlater & Hget' & Hd').
      destruct later as [|x later]; cbn [app] in Heq; injection Heq as -> ->.
      * rewrite Hget'. cbn.
        destruct (contains "third reading" (lower d')); [by subst|].
        destruct Hd' as [-> ->]. done.
      * apply Forall_cons in Hlater as [(d & Hget & H3 & H2) Hlater].
        rewrite Hget. cbn. rewrite H3, H2. apply IH.
        by exists later, a', earlier, d'.
Qed.

(** X8. The reading stage is decided by the most recent action whose
    lower-cased description contains "third reading" or "second reading":
    THIRD when it contains the former, SECOND when it contains only the
    latter, and FIRST exactly when no action contains either.  The actions
    before the deciding one are not looked at. *)
Theorem reading_stage_latest_mention (actions : list pyval) :
  (reading_stage (PList actions) = Ok FIRST ↔ Forall mentions_no_reading actions)
  ∧ (reading_stage (PList actions) = Ok THIRD ↔
     ∃ earlier a later,
       actions = earlier ++ a :: later
       ∧ mentions "third reading" a ∧ Forall mentions_no_reading later)
  ∧ (reading_stage (PList actions) = Ok SECOND ↔
     ∃ earlier a later,
       actions = earlier ++ a :: later
       ∧ mentions "second reading" a ∧ ¬ mentions "third reading" a
       ∧ Forall mentions_no_reading later).
Proof.
  unfold reading_stage, py_reversed. cbn [py_iter mbind result_bind].
  split; [|split].
  - rewrite scan_reading_first. by rewrite Forall_reverse.
  - rewrite scan_reading_stop by done. split.
    + intros (later & a & earlier & d & Heq & Hlater & Hget & Hd).
      exists (reverse earlier), a, (reverse later).
      split; [|split].
      * apply (inj reverse). rewrite Heq, reverse_app, reverse_cons, !reverse_involutive.
        by rewrite <- app_assoc.
      * exists d. split; [done|].
        destruct (contains "third reading" (lower d)); [done|by destruct Hd].
      * by apply Forall_reverse.
    + intros (earlier & a & later & -> & (d & Hget & H3) & Hlater).
      exists (reverse later), a, (reverse earlier), d.
      split; [|split; [|split]].
      * by rewrite reverse_app, reverse_cons, <- app_assoc.
      * by apply Forall_reverse.
      * done.
      * by rewrite H3.
  - rewrite scan_reading_stop by done. split.
    + intros (later & a & earlier & d & Heq & Hlater & Hget & Hd).
      exists (reverse earlier), a, (reverse later).
      destruct (contains "third reading" (lower d)) eqn:H3; [done|].
      destruct Hd as [H2 _].
      split; [|split; [|split]].
      * apply (inj reverse). rewrite Heq, reverse_app, reverse_cons, !reverse_involutive.
        by rewrite <- app_assoc.
      * by exists d.
      * intros (d' & Hget' & H3'). congruence.
      * by apply Forall_reverse.
    + intros (earlier & a & later & -> & (d & Hget & H2) & Hno3 & Hlater).
      exists (reverse later), a, (reverse earlier), d.
      split; [|split; [|split]].
      * by rewrite reverse_app, reverse_cons, <- app_assoc.
      * by apply Forall_reverse.
      * done.
      * destruct (contains "third reading" (lower d)) eqn:H3; [|done].
        destruct Hno3. by exists d.
Qed.

(** ** The committee hearing, read backwards *)

Section HearingFacts.
Variable fromisoformat : string → option datetime.

Lemma scan_committee_source (actions : list pyval) (date : option datetime)
    (name : pyval) :
  scan_committee fromisoformat actions = Ok (date, name) →
  (Forall (λ a, ¬ (mentions "committee" a ∧ mentions "hearing" a)) actions →
     date = None ∧ name = PNone)
  ∧ (∀ d, date = Some d →
       ∃ a stamp, a ∈ actions
         ∧ mentions "committee" a ∧ mentions "hearing" a
         ∧ py_get a "date" PNone = Ok (PStr stamp)
         ∧ fromisoformat (replace "Z" "+00:00" stamp) = Some d).
Proof.
  induction actions as [|a later IH]; cbn [scan_committee].
  - intros [= <- <-]. split; [done|]. by intros d.
  - intros (description & Hget & Hscan)%bind_Ok.
    apply bind_Ok in Hscan as (desc & Hlow & Hscan).
    destruct description as [| | |text| |]; try discriminate Hlow.
    injection Hlow as <-.
    destruct (contains "committee" (lower text)) eqn:Hc;
      [destruct (contains "hearing" (lower text)) eqn:Hh|]; cbn [andb] in Hscan.
    + apply bind_Ok in Hscan as (date_str & Hdate & Hscan).
      apply bind_Ok in Hscan as (org & _ & Hscan).
      apply bind_Ok in Hscan as (committee_name & _ & [= <- <-]).
      split.
      * intros [Hno _]%Forall_cons. destruct Hno. split; by exists text.
      * intros d Hd. unfold hearing_date in Hd.
        destruct (truthy date_str); [|done].
        destruct date_str as [| | |stamp| |]; try done.
        exists a, stamp. split; [by left|]. repeat split; try done; by exists text.
    + destruct (IH Hscan) as [Hnone Hsome]. split.
      * intros [_ Hno]%Forall_cons. by apply Hnone.
      * intros d (a' & stamp & Hin & H)%Hsome. exists a', stamp. split; [by right|done].
    + destruct (IH Hscan) as [Hnone Hsome]. split.
      * intros [_ Hno]%Forall_cons. by apply Hnone.
      * intros d (a' & stamp & Hin & H)%Hsome. exists a', stamp. split; [by right|done].
Qed.

(** X9. A normalized record has a hearing date only if one of its actions
    mentions both "committee" and "hearing" in its description and carries
    a [date] string that parses once every "Z" is replaced by "+00:00";
    when no action mentions both words the record has neither a hearing
    date nor a committee name. *)
Theorem hearing_date_has_a_source (record : pyval) (actions : list pyval)
    (b : BillObject) :
  py_get record "actions" (PList []) = Ok (PList actions) →
  _parse_bill fromisoformat record = Some b →
  (Forall (λ a, ¬ (mentions "committee" a ∧ mentions "hearing" a)) actions →
     obj_committee_hearing_date b = None ∧ obj_committee_name b = PNone)
  ∧ (∀ d, obj_committee_hearing_date b = Some d →
       ∃ a stamp, a ∈ actions
         ∧ mentions "committee" a ∧ mentions "hearing" a
         ∧ py_get a "date" PNone = Ok (PStr stamp)
         ∧ fromisoformat (replace "Z" "+00:00" stamp) = Some d).
Proof.
  intros Hactions (actions' & Hget & _ & Hinfo)%parse_bill_actions.
  rewrite Hactions in Hget. injection Hget as <-.
  unfold committee_info in Hinfo. cbn [py_iter mbind result_bind] in Hinfo.
  by apply scan_committee_source.
Qed.
End HearingFacts.

Lemma hearing_date_has_a_source_witness :
  ∃ b, _parse_bill fromisoformat_basic rereferral_record = Some b
       ∧ obj_committee_hearing_date b = None ∧ obj_committee_name b = PNone.
Proof.
  eexists. split; [reflexivity|].
  refine (proj1 (hearing_date_has_a_source fromisoformat_basic rereferral_record
                   rereferral_actions _ eq_refl eq_refl) _).
  repeat constructor; intros [(d & [= <-] & Hc) _]; discriminate Hc.
Defined.

(** ** The loader on loaded values *)

Section PartialKey.
Context {B K : Type} `{Countable K}.
Variable key : B → result K.
Variable fallback : K.

(** The loop with a key that can raise: it returns exactly when every
    key is computed, with the first bill of each key; otherwise the
    exception is that of some bill's key. *)
Lemma for_each_dedup_partial (seen : gset K) (acc bills : list B) :
  match for_each (dedup_step key) (seen, acc) bills with
  | Ok st =>
      Forall (λ b, ∃ k, key b = Ok k) bills
      ∧ st.2 = acc ++ first_seen (λ b, try_except (key b) fallback) seen bills
  | Raise e => ∃ b, b ∈ bills ∧ key b = Raise e
  end.
Proof.
  revert seen acc. induction bills as [|b rest IH]; intros seen acc.
  - cbn. by rewrite app_nil_r.
  - change (for_each ?f ?st (b :: rest)) with (st' ← f st b; for_each f st' rest).
    unfold dedup_step at 2. destruct (key b) as [k|e] eqn:Hk; cbn [mbind result_bind].
    + cbn [first_seen try_except]. rewrite Hk. cbn [try_except].
      case_bool_decide as Hseen; cbn [mbind result_bind].
      * specialize (IH seen acc). destruct (for_each _ _ rest) as [st|e].
        -- destruct IH as [Hall Hst]. split; [|done]. constructor; [by exists k|done].
        -- destruct IH as (b' & Hin & Hb'). exists b'. split; [by right|done].
      * specialize (IH ({[k]} ∪ seen) (acc ++ [b])).
        destruct (for_each _ _ rest) as [st|e].
        -- destruct IH as [Hall Hst]. split; [constructor; [by exists k|done]|].
           by rewrite Hst, <- app_assoc.
        -- destruct IH as (b' & Hin & Hb'). exists b'. split; [by right|done].
    + exists b. split; [by left|done].
Qed.
End PartialKey.

Section LoaderResult.
Variable fromisoformat : string → option datetime.

Lemma py_hash_raise (v : pyval) (e : exn) :
  py_hash v = Raise e ↔ unhashable v ∧ e = TypeError.
Proof. destruct v; cbn; naive_solver. Qed.

Lemma parse_file_unread (bill_file : json_file) :
  readable bill_file = false → parse_file fromisoformat bill_file = [].
Proof.
  unfold readable, parse_file. destruct (String.eqb _ _); [done|].
  by destruct (loaded bill_file).
Qed.

Lemma collected_from_readable (bill_files : list json_file) :
  filter (λ x, readable x = true) bill_files ≫= parse_file fromisoformat
  = bill_files ≫= parse_file fromisoformat.
Proof.
  induction bill_files as [|x rest IH]; [done|].
  destruct (readable x) eqn:Hx.
  - rewrite filter_cons_True by done. by rewrite !bind_cons, IH.
  - rewrite filter_cons_False by (by rewrite Hx).
    by rewrite bind_cons, parse_file_unread, IH.
Qed.

(** Where a collected bill comes from: a readable file, and a record of
    it that the normalizer accepts, the loaded value itself or an element
    of the loaded array. *)
Lemma elem_of_collected (bill_files : list json_file) (b : BillObject) :
  b ∈ bill_files ≫= parse_file fromisoformat →
  ∃ bill_file data record,
    bill_file ∈ bill_files
    ∧ file_name bill_file ≠ "metadata.json"
    ∧ loaded bill_file = Ok data
    ∧ (record = data ∨ ∃ items, data = PList items ∧ record ∈ items)
    ∧ _parse_bill fromisoformat record = Some b.
Proof.
  intros (bill_file & Hb & Hfile)%list_elem_of_bind.
  unfold parse_file in Hb.
  destruct (String.eqb (file_name bill_file) "metadata.json") eqn:Hname;
    [by apply elem_of_nil in Hb|].
  apply String.eqb_neq in Hname.
  destruct (loaded bill_file) as [data|e] eqn:Hdata; [|by apply elem_of_nil in Hb].
  cbn in Hb.
  destruct data as [| | | |items|entries].
  all: try (destruct (_parse_bill fromisoformat _) as [b'|] eqn:Hrecord in Hb;
            [apply list_elem_of_singleton in Hb as ->|by apply elem_of_nil in Hb];
            eexists bill_file, _, _;
            split; [done|]; split; [done|]; split; [done|]; split; [by left|done]).
  apply list_elem_of_omap in Hb as (record & Hin & Hrecord).
  exists bill_file, (PList items), record. repeat split; try done.
  right. by exists items.
Qed.

(** X10. The loader passes over [metadata.json] and over every file that
    cannot be opened or decoded: it returns, or raises, what it does on
    the other files alone. *)
Theorem loader_reads_only_readable_files (bill_files : list json_file) :
  parse_data_directory fromisoformat (Some bill_files)
  = parse_data_directory fromisoformat
      (Some (filter (λ x, readable x = true) bill_files)).
Proof. unfold parse_data_directory. by rewrite collected_from_readable. Qed.

(** X11. The one way the loader raises: the deduplication loop meets a
    normalized record whose identifier is a JSON array or object, and the
    exception is a TypeError.  Otherwise it returns. *)
Theorem loader_raises_on_unhashable_identifier (bill_files : list json_file) :
  (parse_data_directory fromisoformat (Some bill_files) = Raise TypeError ↔
   ∃ b, b ∈ bill_files ≫= parse_file fromisoformat ∧ unhashable (obj_bill_number b))
  ∧ (∀ e, parse_data_directory fromisoformat (Some bill_files) = Raise e →
          e = TypeError)
  ∧ ((∀ b, b ∈ bill_files ≫= parse_file fromisoformat →
           ¬ unhashable (obj_bill_number b)) →
     ∃ unique, parse_data_directory fromisoformat (Some bill_files) = Ok unique).
Proof.
  unfold parse_data_directory, deduplicate.
  pose proof (for_each_dedup_partial (λ b, py_hash (obj_bill_number b)) HNone
                ∅ [] (bill_files ≫= parse_file fromisoformat)) as Hloop.
  destruct (for_each _ _ _) as [st|e]; cbn [mbind result_bind].
  - destruct Hloop as [Hall _]. split; [|split].
    + split; [done|]. intros (b & Hb & Hun).
      rewrite Forall_forall in Hall. destruct (Hall b Hb) as [k Hk].
      by destruct (obj_bill_number b).
    + done.
    + by eexists.
  - destruct Hloop as (b & Hb & [Hun ->]%py_hash_raise). split; [|split].
    + split; [by exists b|done].
    + by intros e [= <-].
    + intros Hnone. by destruct (Hnone b Hb).
Qed.

(** What a returning loader computed. *)
Lemma loader_first_seen (bill_files : list json_file) (unique : list BillObject) :
  parse_data_directory fromisoformat (Some bill_files) = Ok unique →
  unique = first_seen identifier_key ∅ (bill_files ≫= parse_file fromisoformat)
  ∧ ∀ b, b ∈ bill_files ≫= parse_file fromisoformat →
         py_hash (obj_bill_number b) = Ok (identifier_key b).
Proof.
  unfold parse_data_directory, deduplicate.
  pose proof (for_each_dedup_partial (λ b, py_hash (obj_bill_number b)) HNone
                ∅ [] (bill_files ≫= parse_file fromisoformat)) as Hloop.
  destruct (for_each _ _ _) as [st|e]; cbn [mbind result_bind]; [|done].
  destruct Hloop as [Hall Hst]. intros [= <-]. rewrite Hst, app_nil_l.
  split; [done|]. intros b Hb.
  rewrite Forall_forall in Hall. destruct (Hall b Hb) as [k Hk].
  unfold identifier_key. by rewrite Hk.
Qed.

(** X12. What the loader returns: the first normalized record of each
    identifier, in the order the files list them.  Identifiers are
    compared as a set compares them, so that the kept identifiers are
    pairwise different, every collected identifier is kept, and each kept
    bill is the first collected one with its identifier. *)
Theorem loader_keeps_first_of_each_identifier (bill_files : list json_file)
    (unique : list BillObject) :
  parse_data_directory fromisoformat (Some bill_files) = Ok unique →
  unique `sublist_of` (bill_files ≫= parse_file fromisoformat)
  ∧ NoDup (identifier_key <$> unique)
  ∧ (∀ b, b ∈ bill_files ≫= parse_file fromisoformat →
          py_hash (obj_bill_number b) = Ok (identifier_key b)
          ∧ identifier_key b ∈ identifier_key <$> unique)
  ∧ (∀ b, b ∈ unique →
       ∃ i, list_find (λ x, identifier_key x = identifier_key b)
                      (bill_files ≫= parse_file fromisoformat) = Some (i, b)).
Proof.
  intros [-> Hhash]%loader_first_seen.
  split; [apply first_seen_sublist|]. split; [apply first_seen_NoDup|]. split.
  - intros b Hb. split; [by apply Hhash|].
    apply first_seen_covers; [done|set_solver].
  - intros b. apply first_seen_first.
Qed.

(** X13. Every bill the loader returns comes from a record of a file other
    than [metadata.json] that was opened and decoded, and carries an
    identifier that is truthy and hashable and a status URL that is
    truthy. *)
Theorem loaded_bills_are_well_founded (bill_files : list json_file)
    (unique : list BillObject) (b : BillObject) :
  parse_data_directory fromisoformat (Some bill_files) = Ok unique →
  b ∈ unique →
  (∃ bill_file data record,
     bill_file ∈ bill_files
     ∧ file_name bill_file ≠ "metadata.json"
     ∧ loaded bill_file = Ok data
     ∧ (record = data ∨ ∃ items, data = PList items ∧ record ∈ items)
     ∧ _parse_bill fromisoformat record = Some b)
  ∧ truthy (obj_bill_number b) = true
  ∧ ¬ unhashable (obj_bill_number b)
  ∧ truthy (obj_ilga_url b) = true.
Proof.
  intros Hload Hb.
  apply loader_first_seen in Hload as [-> Hhash].
  assert (Hin : b ∈ bill_files ≫= parse_file fromisoformat)
    by (eapply elem_of_sublist; [done|apply first_seen_sublist]).
  pose proof (elem_of_collected _ _ Hin) as Hfrom.
  split; [exact Hfrom|].
  destruct Hfrom as (bill_file & data & record & _ & _ & _ & _ & Hrecord).
  pose proof (parse_bill_steps fromisoformat _ _ Hrecord)
    as (entries & subjects & url & _ & Htruthy & _ & _ & _ & _ & _ & _ & _ & Hurl).
  split; [done|]. split.
  - intros Hun. pose proof (Hhash b Hin) as Hk. by destruct (obj_bill_number b).
  - destruct (truthy url) eqn:Hu; [by rewrite Hurl|].
    destruct Hurl as (s & _ & ->). by destruct (obj_chamber b).
Qed.
End LoaderResult.

Lemma loader_keeps_first_of_each_identifier_witness :
  ∃ unique,
    parse_data_directory fromisoformat_basic (Some sample_directory) = Ok unique
    ∧ obj_bill_number <$> unique = [PStr "HB1234"; PStr "SB 2111"]
    ∧ NoDup (identifier_key <$> unique).
Proof.
  eexists. split; [reflexivity|]. split; [reflexivity|].
  refine (proj1 (proj2 (loader_keeps_first_of_each_identifier fromisoformat_basic
                          sample_directory _ eq_refl))).
Defined.

Lemma loaded_bills_are_well_founded_witness :
  ∃ unique b,
    parse_data_directory fromisoformat_basic (Some sample_directory) = Ok unique
    ∧ b ∈ unique
    ∧ obj_bill_number b = PStr "SB 2111"
    ∧ truthy (obj_ilga_url b) = true.
Proof.
  do 2 eexists. split; [reflexivity|].
  assert (Hin : ∀ x y : BillObject, y ∈ [x; y]) by (intros; apply elem_of_cons; right; apply elem_of_cons; by left).
  split; [apply Hin|]. split; [reflexivity|].
  refine (proj2 (proj2 (proj2 (loaded_bills_are_well_founded fromisoformat_basic
                                 sample_directory _ _ eq_refl (Hin _ _))))).
Defined.

(** ** Recipient lists: [EnvironmentConfig.load] *)

Lemma lstrip_head (s : string) :
  lstrip s = "" ∨ ∃ c rest, lstrip s = String c rest ∧ is_space c = false.
Proof.
  induction s as [|c s IH]; cbn [lstrip]; [by left|].
  destruct (is_space c) eqn:Hc; [done|]. right. by exists c, s.
Qed.

Lemma rstrip_idemp (s : string) : rstrip (rstrip s) = rstrip s.
Proof.
  induction s as [|c s IH]; [done|]. cbn [rstrip].
  destruct (rstrip s) as [|d r] eqn:Hr.
  - destruct (is_space c) eqn:Hc; [done|]. cbn [rstrip]. by rewrite Hc.
  - cbn [rstrip]. cbn [rstrip] in IH. by rewrite IH.
Qed.

Lemma lstrip_rstrip (c : ascii) (s : string) :
  is_space c = false → lstrip (rstrip (String c s)) = rstrip (String c s).
Proof.
  intros Hc. cbn [rstrip]. destruct (rstrip s); rewrite ?Hc; cbn [lstrip]; by rewrite Hc.
Qed.

Lemma strip_idemp (s : string) : strip (strip s) = strip s.
Proof.
  unfold strip. destruct (lstrip_head s) as [->|(c & rest & -> & Hc)]; [done|].
  by rewrite lstrip_rstrip, rstrip_idemp.
Qed.

(** X14. The entries of a recipient list, and of the list of tracked bills,
    are the comma-separated pieces of the variable, trimmed, without the
    pieces that are blank: no entry is empty and none has white space at
    either end. *)
Theorem nonempty_items_are_trimmed (raw item : string) :
  (item ∈ nonempty_items raw ↔
   item ≠ "" ∧ ∃ piece, piece ∈ split comma raw ∧ item = strip piece)
  ∧ (item ∈ nonempty_items raw → strip item = item).
Proof.
  unfold nonempty_items.
  assert (Hiff : item ∈ strip <$> filter (λ r, strip r ≠ "") (split comma raw) ↔
                 item ≠ "" ∧ ∃ piece, piece ∈ split comma raw ∧ item = strip piece).
  { rewrite list_elem_of_fmap. setoid_rewrite list_elem_of_filter. naive_solver. }
  split; [exact Hiff|].
  intros (_ & piece & _ & ->)%Hiff. apply strip_idemp.
Qed.

(** ** Routing: order, coverage and priority *)

Lemma filter_tracked_numbers (tracked : list string) (bills : list Bill) (n : string) :
  n ∈ numbers (filter (λ b, bill_number b ∈ tracked) bills) ↔
  n ∈ tracked ∧ ∃ b, b ∈ bills ∧ bill_number b = n.
Proof.
  rewrite elem_of_numbers. setoid_rewrite list_elem_of_filter. naive_solver.
Qed.

Lemma selected_sublist (sub : Subscription) (matched : gset string) (bills : list Bill) :
  selected sub matched bills `sublist_of` bills.
Proof.
  unfold selected. destruct (recipients sub); [apply sublist_nil_l|apply sublist_filter].
Qed.

(** The keys of the routed dict and what they list. *)
Lemma route_bills_entries (subs : Subscriptions) (bills : list Bill)
    (label : string) (listed : list Bill) :
  (label, listed) ∈ _route_bills subs bills →
  label ∈ [tracked_label; transportation_label; housing_label]
  ∧ listed ≠ [] ∧ listed `sublist_of` bills.
Proof.
  rewrite route_bills_categories, !elem_of_app, !elem_of_category.
  intros [(-> & -> & Hne)|[(-> & -> & Hne)|(-> & -> & Hne)]].
  - split; [set_solver|]. split; [done|apply sublist_filter].
  - split; [set_solver|]. split; [done|apply selected_sublist].
  - split; [set_solver|]. split; [done|apply selected_sublist].
Qed.

Lemma route_bills_nil (subs : Subscriptions) (bills : list Bill) :
  _route_bills subs bills = [] ↔ ∀ label b, ¬ routed_to (_route_bills subs bills) label b.
Proof.
  split.
  - intros -> label b (listed & Hin & _). by apply elem_of_nil in Hin.
  - intros Hnone. destruct (_route_bills subs bills) as [|[label listed] rest] eqn:Hr;
      [done|].
    assert (Hin : (label, listed) ∈ _route_bills subs bills) by (rewrite Hr; by left).
    pose proof (route_bills_entries _ _ _ _ Hin) as (_ & Hne & _).
    destruct listed as [|b listed]; [done|].
    destruct (Hnone label b). exists (b :: listed). rewrite <- Hr. split; [done|by left].
Qed.

Lemma routed_is_eligible (subs : Subscriptions) (bills : list Bill)
    (label : string) (b : Bill) :
  routed_to (_route_bills subs bills) label b → b ∈ bills ∧ eligible subs b.
Proof.
  intros [[-> Hb]|[[-> Hb]|[-> Hb]]]%routed_to_categories.
  - apply list_elem_of_filter in Hb as [Ht Hb]. split; [done|by left].
  - apply elem_of_selected in Hb as (Hr & _ & Hm & Hb). split; [done|]. right; by left.
  - apply elem_of_selected in Hb as (Hr & _ & Hm & Hb). split; [done|]. right; by right.
Qed.

Lemma eligible_is_routed (subs : Subscriptions) (bills : list Bill) (b : Bill) :
  b ∈ bills → eligible subs b →
  ∃ label b', routed_to (_route_bills subs bills) label b'
              ∧ bill_number b' = bill_number b.
Proof.
  intros Hb Hel.
  set (T := filter (λ b, bill_number b ∈ tracked_bills subs) bills).
  set (R := selected (transportation subs) (numbers T) bills).
  set (H := selected (housing subs) (numbers R ∪ numbers T) bills).
  assert (HT : ∀ x, x ∈ T → routed_to (_route_bills subs bills) tracked_label x).
  { intros x Hx. apply routed_to_categories. by left. }
  assert (HR : ∀ x, x ∈ R → routed_to (_route_bills subs bills) transportation_label x).
  { intros x Hx. apply routed_to_categories. right; by left. }
  assert (HH : ∀ x, x ∈ H → routed_to (_route_bills subs bills) housing_label x).
  { intros x Hx. apply routed_to_categories. right; by right. }
  destruct (decide (bill_number b ∈ numbers T)) as [HnT|HnT].
  { apply elem_of_numbers in HnT as (x & Hx & Heq). eauto. }
  destruct (decide (bill_number b ∈ numbers R)) as [HnR|HnR].
  { apply elem_of_numbers in HnR as (x & Hx & Heq). eauto. }
  destruct Hel as [Ht|[[Hr Hm]|[Hr Hm]]].
  - destruct HnT. apply filter_tracked_numbers. eauto.
  - destruct HnR. apply elem_of_numbers. exists b. split; [|done].
    by apply elem_of_selected.
  - exists housing_label, b. split; [|done]. apply HH.
    apply elem_of_selected. repeat split; try done. set_solver.
Qed.

Lemma same_number_same_bill (bills : list Bill) (b1 b2 : Bill) :
  NoDup (bill_number <$> bills) → b1 ∈ bills → b2 ∈ bills →
  bill_number b1 = bill_number b2 → b1 = b2.
Proof.
  induction bills as [|x rest IH]; [by intros _ ?%elem_of_nil|].
  rewrite fmap_cons. intros [Hx Hnd]%NoDup_cons Hb1 Hb2 Heq.
  apply elem_of_cons in Hb1 as [->|Hb1], Hb2 as [->|Hb2]; try done.
  - destruct Hx. rewrite Heq. apply list_elem_of_fmap. eauto.
  - destruct Hx. rewrite <- Heq. apply list_elem_of_fmap. eauto.
  - by apply IH.
Qed.

(** X15. The routed dict lists its categories in the fixed order tracked,
    transportation, housing; a category that is present is never empty,
    and its bills are bills of the input, in the order of the input. *)
Theorem route_bills_category_order (subs : Subscriptions) (bills : list Bill) :
  (_route_bills subs bills).*1
    `sublist_of` [tracked_label; transportation_label; housing_label]
  ∧ ∀ label listed, (label, listed) ∈ _route_bills subs bills →
      listed ≠ [] ∧ listed `sublist_of` bills.
Proof.
  split.
  - rewrite route_bills_categories.
    set (T := filter _ bills).
    set (R := selected (transportation subs) (numbers T) bills).
    set (H := selected (housing subs) (numbers R ∪ numbers T) bills).
    destruct T, R, H; cbn [category app fmap list_fmap fst];
      repeat first [apply sublist_nil_l | apply sublist_skip | apply sublist_cons].
  - intros label listed Hin. by apply route_bills_entries in Hin as (_ & ? & ?).
Qed.

(** X16. Who is notified.  Every routed bill is a bill of the input that is
    eligible: tracked, or matching the topics of a subscription that has a
    recipient.  Every eligible bill of the input has its identifier in the
    routed dict, and is itself in it when the identifiers of the input are
    pairwise different, as the loader leaves them.  Hence nothing is routed
    exactly when no bill is eligible. *)
Theorem routed_bills_are_the_eligible_ones (subs : Subscriptions) (bills : list Bill) :
  (∀ label b, routed_to (_route_bills subs bills) label b →
      b ∈ bills ∧ eligible subs b)
  ∧ (∀ b, b ∈ bills → eligible subs b →
      ∃ label b', routed_to (_route_bills subs bills) label b'
                  ∧ bill_number b' = bill_number b)
  ∧ (NoDup (bill_number <$> bills) →
     ∀ b, b ∈ bills → eligible subs b →
       ∃ label, routed_to (_route_bills subs bills) label b)
  ∧ (_route_bills subs bills = [] ↔ ∀ b, b ∈ bills → ¬ eligible subs b).
Proof.
  split; [apply routed_is_eligible|]. split; [apply eligible_is_routed|]. split.
  - intros Hnd b Hb Hel.
    destruct (eligible_is_routed subs bills b Hb Hel) as (label & b' & Hr & Heq).
    exists label. pose proof (routed_is_eligible _ _ _ _ Hr) as [Hb' _].
    by rewrite <- (same_number_same_bill bills b' b Hnd Hb' Hb Heq).
  - rewrite route_bills_nil. split.
    + intros Hnone b Hb Hel.
      destruct (eligible_is_routed subs bills b Hb Hel) as (label & b' & Hr & _).
      by destruct (Hnone label b').
    + intros Hnone label b [Hb Hel]%routed_is_eligible. by destruct (Hnone b Hb).
Qed.

(** X17. Transportation is served before housing: a bill that is not tracked
    and matches the transportation topics is listed under transportation
    when that subscription has a recipient, and then never under housing,
    whether or not it matches the housing topics as well. *)
Theorem transportation_takes_priority (subs : Subscriptions) (bills : list Bill)
    (b : Bill) :
  recipients (transportation subs) ≠ [] → b ∈ bills →
  bill_number b ∉ tracked_bills subs →
  matches_topics b (topics (transportation subs)) = true →
  routed_to (_route_bills subs bills) transportation_label b
  ∧ ¬ routed_to (_route_bills subs bills) housing_label b.
Proof.
  intros Hr Hb Hnt Hm.
  assert (Hsel : b ∈ selected (transportation subs)
                   (numbers (filter (λ b, bill_number b ∈ tracked_bills subs) bills))
                   bills).
  { apply elem_of_selected. repeat split; try done.
    rewrite filter_tracked_numbers. tauto. }
  destruct labels_distinct as (Hl1 & Hl2 & Hl3).
  split.
  - apply routed_to_categories. right; by left.
  - intros [[? _]|[[? _]|[_ Hh]]]%routed_to_categories; try done.
    apply elem_of_selected in Hh as (_ & Hfresh & _).
    destruct Hfresh. apply elem_of_union. left. apply elem_of_numbers. eauto.
Qed.

Lemma transportation_takes_priority_witness :
  routed_to
    (_route_bills (sample_subscriptions ["transit@example.org"])
       [sample_bill "HB0002" FIRST ["Public Transportation"; "Affordable Housing"] None])
    transportation_label
    (sample_bill "HB0002" FIRST ["Public Transportation"; "Affordable Housing"] None)
  ∧ ¬ routed_to
    (_route_bills (sample_subscriptions ["transit@example.org"])
       [sample_bill "HB0002" FIRST ["Public Transportation"; "Affordable Housing"] None])
    housing_label
    (sample_bill "HB0002" FIRST ["Public Transportation"; "Affordable Housing"] None).
Proof.
  apply transportation_takes_priority.
  - discriminate.
  - by left.
  - cbn. by intros [[=]|?%elem_of_nil]%elem_of_cons.
  - reflexivity.
Defined.

(** X18. With RECIPIENTS_TRANSPORTATION, RECIPIENTS_HOUSING and TRACKED_BILLS
    unset nothing is routed, whatever the bills and whatever RECIPIENTS_ALL
    and the topic variables hold. *)
Theorem recipients_all_alone_routes_nothing (environ : gmap string string)
    (bills : list Bill) :
  environ !! "RECIPIENTS_TRANSPORTATION" = None →
  environ !! "RECIPIENTS_HOUSING" = None →
  environ !! "TRACKED_BILLS" = None →
  _route_bills (load_subscriptions environ) bills = [].
Proof.
  intros Ht Hh Htracked. rewrite route_bills_categories.
  unfold selected, load_subscriptions, getenv. cbn [transportation housing recipients
    tracked_bills]. rewrite Ht, Hh, Htracked.
  change (nonempty_items "") with (@nil string). cbn [category app].
  induction bills as [|b bills IH]; [done|].
  rewrite filter_cons_False; [done|]. by intros ?%elem_of_nil.
Qed.

Lemma recipients_all_alone_routes_nothing_witness :
  _route_bills
    (load_subscriptions {[ "RECIPIENTS_ALL" := "everyone@example.org" ]})
    [sample_bill "HB0001" FIRST ["Housing"] None] = [].
Proof. apply recipients_all_alone_routes_nothing; reflexivity. Defined.

(** ** The actionability filter on a list *)

Lemma actionable_aware (clock : Z) (bills : list Bill) :
  (∃ b, b ∈ bills ∧ aware_hearing b) →
  actionable (datetime_now clock) bills = Raise TypeError.
Proof.
  induction bills as [|x rest IH]; intros (b & Hb & Haware).
  - by apply elem_of_nil in Hb.
  - cbn [actionable].
    destruct (committee_hearing_date x) as [d|] eqn:Hd;
      [destruct (utcoffset d) as [offset|] eqn:Ho|].
    + by rewrite (is_actionable_aware clock x d offset).
    + destruct (is_actionable_naive clock x) as (keep & -> & _).
      { intros d' Hd'. congruence. }
      cbn [mbind result_bind]. rewrite IH; [done|].
      apply elem_of_cons in Hb as [->|Hb]; [|by exists b].
      destruct Haware as (d' & offset & Hd' & Ho'). congruence.
    + destruct (is_actionable_naive clock x) as (keep & -> & _).
      { intros d' Hd'. congruence. }
      cbn [mbind result_bind]. rewrite IH; [done|].
      apply elem_of_cons in Hb as [->|Hb]; [|by exists b].
      destruct Haware as (d' & offset & Hd' & Ho'). congruence.
Qed.

Lemma actionable_naive (clock : Z) (bills : list Bill) :
  (∀ b, b ∈ bills → ¬ aware_hearing b) →
  actionable (datetime_now clock) bills = Ok (filter (worth_a_slip clock) bills).
Proof.
  induction bills as [|x rest IH]; intros Hnaive; [done|].
  cbn [actionable].
  destruct (is_actionable_naive clock x) as (keep & -> & Hkeep).
  { intros d Hd. destruct (utcoffset d) as [offset|] eqn:Ho; [|done].
    destruct (Hnaive x); [by left|]. by exists d, offset. }
  cbn [mbind result_bind]. rewrite IH by (intros b Hb; apply Hnaive; by right).
  cbn [mbind result_bind]. destruct keep.
  - rewrite filter_cons_True; [done|]. by apply Hkeep.
  - rewrite filter_cons_False; [done|]. intros Hx%Hkeep. done.
Qed.

Lemma aware_hearing_dec (bills : list Bill) :
  (∃ b, b ∈ bills ∧ aware_hearing b) ∨ (∀ b, b ∈ bills → ¬ aware_hearing b).
Proof.
  induction bills as [|x rest [(b & Hb & Ha)|IH]].
  - right. by intros b ?%elem_of_nil.
  - left. exists b. split; [by right|done].
  - destruct (committee_hearing_date x) as [d|] eqn:Hd;
      [destruct (utcoffset d) as [offset|] eqn:Ho|].
    + left. exists x. split; [by left|]. by exists d, offset.
    + right. intros b [->|Hb]%elem_of_cons; [|by apply IH].
      intros (d' & offset & Hd' & Ho'). congruence.
    + right. intros b [->|Hb]%elem_of_cons; [|by apply IH].
      intros (d' & offset & Hd' & Ho'). congruence.
Qed.

(** X19. The filter of [main] on a whole list.  It raises, and only ever a
    TypeError, exactly when some bill of the list has a hearing date that
    carries a zone, wherever the bill stands and whatever its stage;
    otherwise it returns the bills with a hearing within thirty days or a
    first or second reading ahead, in the order of the input. *)
Theorem actionable_filter_outcome (clock : Z) (bills : list Bill) :
  (actionable (datetime_now clock) bills = Raise TypeError ↔
   ∃ b, b ∈ bills ∧ aware_hearing b)
  ∧ (∀ e, actionable (datetime_now clock) bills = Raise e → e = TypeError)
  ∧ ((∀ b, b ∈ bills → ¬ aware_hearing b) ↔
     actionable (datetime_now clock) bills = Ok (filter (worth_a_slip clock) bills)).
Proof.
  destruct (aware_hearing_dec bills) as [Haware|Hnaive].
  - pose proof (actionable_aware clock bills Haware) as Hraise.
    rewrite Hraise. split; [done|]. split; [by intros e [= <-]|].
    split; [|done]. intros Hnaive. destruct Haware as (b & Hb & Ha).
    by destruct (Hnaive b Hb).
  - pose proof (actionable_naive clock bills Hnaive) as Hok.
    rewrite Hok. split; [|done]. split; [done|].
    intros (b & Hb & Ha). by destruct (Hnaive b Hb).
Qed.

(** ** The JSON artifact and the run *)

Lemma routed_numbers_distinct (subs : Subscriptions) (bills : list Bill) :
  NoDup (bill_number <$> bills) →
  NoDup (bill_number <$> (_route_bills subs bills ≫= snd)).
Proof.
  intros Hnd. rewrite route_bills_categories.
  set (T := filter (λ b, bill_number b ∈ tracked_bills subs) bills).
  set (R := selected (transportation subs) (numbers T) bills).
  set (H := selected (housing subs) (numbers R ∪ numbers T) bills).
  assert (Hcat : ∀ label L, category label L ≫= snd = L).
  { intros label [|x L]; [done|]. cbn. by rewrite app_nil_r. }
  rewrite !bind_app, !Hcat, !fmap_app.
  assert (Hsub : ∀ L, L `sublist_of` bills → NoDup (bill_number <$> L)).
  { intros L HL. eapply sublist_NoDup; [exact Hnd|]. by apply fmap_sublist. }
  assert (Hnum : ∀ L n, n ∈ bill_number <$> L ↔ n ∈ numbers L).
  { intros L n. unfold numbers. by rewrite elem_of_list_to_set. }
  assert (HR : ∀ n, n ∈ bill_number <$> R → n ∉ numbers T).
  { intros n (b & -> & Hb)%list_elem_of_fmap. apply elem_of_selected in Hb. tauto. }
  assert (HH : ∀ n, n ∈ bill_number <$> H → n ∉ numbers R ∪ numbers T).
  { intros n (b & -> & Hb)%list_elem_of_fmap. apply elem_of_selected in Hb. tauto. }
  apply NoDup_app. split; [apply Hsub, sublist_filter|]. split.
  - intros n HnT%Hnum [HnR|HnH]%elem_of_app.
    + by apply (HR n).
    + apply (HH n HnH). set_solver.
  - apply NoDup_app. split; [apply Hsub, selected_sublist|]. split.
    + intros n HnR%Hnum HnH. apply (HH n HnH). set_solver.
    + apply Hsub, selected_sublist.
Qed.

Lemma route_bills_no_bills (subs : Subscriptions) : _route_bills subs [] = [].
Proof.
  apply route_bills_nil. intros label b [Hb _]%routed_is_eligible.
  by apply elem_of_nil in Hb.
Qed.

Section RenderingFacts.
Variable isoformat : datetime → string.
Variable json_dumps : list JsonEntry → string.
Variable _generate_plain : Routed → result string.
Variable _generate_html : Routed → result string.
Variable py_int : string → option Z.
Variable smtp_deliver : SmtpSettings → Message → result unit.

Lemma elem_of_generate_json (subs : Subscriptions) (bills : list Bill) (e : JsonEntry) :
  e ∈ generate_json isoformat subs bills ↔
  ∃ label b, routed_to (_route_bills subs bills) label b
             ∧ e = json_entry isoformat label b.
Proof.
  unfold generate_json, routed_to. rewrite list_elem_of_bind. split.
  - intros ([label listed] & (b & -> & Hb)%list_elem_of_fmap & Hin).
    exists label, b. split; [by exists listed|done].
  - intros (label & b & (listed & Hin & Hb) & ->).
    exists (label, listed). split; [|done]. apply list_elem_of_fmap. by exists b.
Qed.

Lemma generate_json_nil (subs : Subscriptions) (bills : list Bill) :
  generate_json isoformat subs bills = [] ↔ _route_bills subs bills = [].
Proof.
  rewrite route_bills_nil. split.
  - intros Hnil label b Hr.
    assert (He : json_entry isoformat label b ∈ generate_json isoformat subs bills)
      by (apply elem_of_generate_json; eauto).
    rewrite Hnil in He. by apply elem_of_nil in He.
  - intros Hnone. destruct (generate_json isoformat subs bills) as [|e rest] eqn:Hj;
      [done|].
    assert (He : e ∈ generate_json isoformat subs bills) by (rewrite Hj; by left).
    apply elem_of_generate_json in He as (label & b & Hr & _).
    by destruct (Hnone label b).
Qed.

Lemma generate_json_numbers (subs : Subscriptions) (bills : list Bill) :
  entry_bill_number <$> generate_json isoformat subs bills
  = bill_number <$> (_route_bills subs bills ≫= snd).
Proof.
  unfold generate_json. induction (_route_bills subs bills) as [|[label listed] rest IH];
    [done|].
  rewrite !bind_cons, !fmap_app, IH. f_equal. cbn [fst snd].
  by rewrite <- list_fmap_compose.
Qed.

Lemma generate_json_closed (subs : Subscriptions) (bills : list Bill) :
  generate_json isoformat subs bills
  = (json_entry isoformat tracked_label
       <$> filter (λ b, bill_number b ∈ tracked_bills subs) bills)
    ++ (json_entry isoformat transportation_label
          <$> selected (transportation subs)
                (numbers (filter (λ b, bill_number b ∈ tracked_bills subs) bills))
                bills)
    ++ (json_entry isoformat housing_label
          <$> selected (housing subs)
                (numbers (selected (transportation subs)
                            (numbers (filter (λ b, bill_number b ∈ tracked_bills subs)
                                             bills))
                            bills)
                 ∪ numbers (filter (λ b, bill_number b ∈ tracked_bills subs) bills))
                bills).
Proof.
  unfold generate_json. rewrite route_bills_categories.
  assert (Hcat : ∀ label L,
            category label L ≫= (λ entry, json_entry isoformat entry.1 <$> entry.2)
            = json_entry isoformat label <$> L).
  { intros label [|x L]; [done|]. cbn. by rewrite app_nil_r. }
  by rewrite !bind_app, !Hcat.
Qed.

Lemma generate_json_pairs (subs : Subscriptions) (bills : list Bill) :
  (λ e, (entry_category e, entry_bill_number e)) <$> generate_json isoformat subs bills
  = _route_bills subs bills ≫= (λ entry, (λ b, (entry.1, bill_number b)) <$> entry.2).
Proof.
  unfold generate_json. induction (_route_bills subs bills) as [|[label listed] rest IH];
    [done|].
  rewrite !bind_cons, !fmap_app, IH. f_equal. cbn [fst snd].
  by rewrite <- list_fmap_compose.
Qed.

(** X20. The JSON artifact holds exactly one entry for each bill of each
    category of the routed dict, in the order of the dict: its sequence of
    (category, identifier) pairs is the routed dict flattened, and the
    artifact itself is the entries of the tracked bills in input order,
    then those of the bills transportation takes, then those of the bills
    housing takes.  Each entry carries the label of its category and the
    fields of its bill; the artifact is empty exactly when nothing is
    routed, and every entry belongs to a bill of the input that is
    eligible. *)
Theorem generate_json_lists_routed_bills (subs : Subscriptions) (bills : list Bill) :
  ((λ e, (entry_category e, entry_bill_number e)) <$> generate_json isoformat subs bills
   = _route_bills subs bills ≫= (λ entry, (λ b, (entry.1, bill_number b)) <$> entry.2))
  ∧ (let tracked := filter (λ b, bill_number b ∈ tracked_bills subs) bills in
     let taken_by_transportation :=
       selected (transportation subs) (numbers tracked) bills in
     let taken_by_housing :=
       selected (housing subs) (numbers taken_by_transportation ∪ numbers tracked)
                bills in
     generate_json isoformat subs bills
     = (json_entry isoformat tracked_label <$> tracked)
       ++ (json_entry isoformat transportation_label <$> taken_by_transportation)
       ++ (json_entry isoformat housing_label <$> taken_by_housing))
  ∧ length (generate_json isoformat subs bills)
    = length (_route_bills subs bills ≫= snd)
  ∧ (∀ e, e ∈ generate_json isoformat subs bills ↔
     ∃ label b, routed_to (_route_bills subs bills) label b
                ∧ e = json_entry isoformat label b)
  ∧ (generate_json isoformat subs bills = [] ↔ _route_bills subs bills = [])
  ∧ (∀ e, e ∈ generate_json isoformat subs bills →
       entry_category e ∈ [tracked_label; transportation_label; housing_label]
       ∧ ∃ b, b ∈ bills ∧ eligible subs b ∧ entry_bill_number e = bill_number b
              ∧ entry_bill_status_url e = ilga_url b).
Proof.
  split; [apply generate_json_pairs|]. split; [apply generate_json_closed|].
  split.
  { rewrite <- (length_fmap entry_bill_number), generate_json_numbers.
    by rewrite length_fmap. }
  split; [apply elem_of_generate_json|]. split; [apply generate_json_nil|].
  intros e (label & b & Hr & ->)%elem_of_generate_json. split.
  - destruct Hr as (listed & Hin & _).
    by apply route_bills_entries in Hin as (Hlabel & _).
  - apply routed_is_eligible in Hr as [Hb Hel]. by exists b.
Qed.

(** X21. When the identifiers of the bills are pairwise different, as the
    loader leaves them, no identifier occurs twice in the JSON artifact. *)
Theorem generate_json_distinct_numbers (subs : Subscriptions) (bills : list Bill) :
  NoDup (bill_number <$> bills) →
  NoDup (entry_bill_number <$> generate_json isoformat subs bills).
Proof. intros Hnd. rewrite generate_json_numbers. by apply routed_numbers_distinct. Qed.


(** What [send_email] does with a recipient. *)
Lemma send_email_Ok (environ : gmap string string) (subject plain html : string)
    (to : list string) (sent : option Message) :
  send_email py_int smtp_deliver environ subject plain html to = Ok sent →
  (to = [] ∧ sent = None)
  ∨ (to ≠ []
     ∧ ∃ port,
         py_int (getenv environ "SMTP_PORT" "1025") = Some port
         ∧ sent = Some {| msg_from := getenv environ "USER_EMAIL" "[email protected]";
                          msg_to := to; msg_subject := subject;
                          msg_plain := plain; msg_html := html |}
         ∧ ∃ settings,
             smtp_host settings = getenv environ "SMTP_HOST" "localhost"
             ∧ smtp_port settings = port
             ∧ smtp_deliver settings
                 {| msg_from := getenv environ "USER_EMAIL" "[email protected]";
                    msg_to := to; msg_subject := subject;
                    msg_plain := plain; msg_html := html |} = Ok tt).
Proof.
  unfold send_email. destruct to as [|r rs]; [intros [= <-]; by left|].
  intros (port & Hport & Hsend)%bind_Ok.
  apply bind_Ok in Hsend as ([] & Hdeliver & [= <-]).
  right. split; [done|]. exists port.
  destruct (py_int _) as [p|]; [|done]. injection Hport as ->.
  split; [done|]. split; [done|]. eexists (mk_SmtpSettings _ _ _). cbn.
  split; [reflexivity|]. split; [reflexivity|]. exact Hdeliver.
Qed.

(** The run, case by case. *)
Lemma main_outcome (mode : Mode) (environ : gmap string string)
    (subs : Subscriptions) (clock : Z) (bills : list Bill) (eff : Effects) :
  main_after_loading isoformat json_dumps _generate_plain _generate_html
    py_int smtp_deliver mode environ subs clock bills = Ok eff →
  ∃ kept,
    actionable (datetime_now clock) bills = Ok kept
    ∧ ((_route_bills subs kept = []
        ∧ ∃ text html, eff = write_artifacts mode text html "[]")
       ∨ (_route_bills subs kept ≠ []
          ∧ ∃ plain html,
              generate_notifications _generate_plain _generate_html subs kept
              = Ok (plain, html)
              ∧ match mode with
                | github_action =>
                    eff = write_artifacts mode plain html
                            (json_dumps (generate_json isoformat subs kept))
                | local =>
                    ∃ sent,
                      send_email py_int smtp_deliver environ
                        "IL Witness Slip Alerts – Urbanist Bills" plain html
                        (recipients (transportation subs)
                         ++ recipients (housing subs) ++ all_recipients subs)
                      = Ok sent
                      ∧ eff = {| written := []; emailed := sent |}
                end)).
Proof.
  unfold main_after_loading. destruct bills as [|b0 bills0].
  { intros [= <-]. exists []. split; [done|]. left.
    split; [apply route_bills_no_bills|]. by do 2 eexists. }
  intros (kept & Hkept & Hrun)%bind_Ok. exists kept. split; [done|].
  destruct kept as [|k0 kept0].
  { injection Hrun as <-. left. split; [apply route_bills_no_bills|]. by do 2 eexists. }
  apply bind_Ok in Hrun as ([plain html] & Hnotes & Hrun).
  destruct (generate_json isoformat subs (k0 :: kept0)) as [|e json] eqn:Hjson.
  { injection Hrun as <-. left. split; [by apply generate_json_nil|]. by do 2 eexists. }
  right. split.
  { intros Hnil%generate_json_nil. by rewrite Hnil in Hjson. }
  exists plain, html. split; [done|]. destruct mode.
  - by injection Hrun.
  - apply bind_Ok in Hrun as (sent & Hsent & [= <-]). by exists sent.
Qed.

(** X22. In github-action mode a run that returns has written the three
    artifacts, in the order text, HTML, JSON, and sent no mail; the JSON
    artifact is "[]" when nothing is routed, and the serialized entries,
    beside the two rendered bodies, otherwise. *)
Theorem main_github_action_writes_three_files (environ : gmap string string)
    (subs : Subscriptions) (clock : Z) (bills : list Bill) (eff : Effects) :
  main_after_loading isoformat json_dumps _generate_plain _generate_html
    py_int smtp_deliver github_action environ subs clock bills = Ok eff →
  emailed eff = None
  ∧ ∃ kept text html json,
      actionable (datetime_now clock) bills = Ok kept
      ∧ written eff = [("notifications_output.txt", text);
                       ("notifications_output.html", html);
                       ("witness_slip_notifications.json", json)]
      ∧ (_route_bills subs kept = [] → json = "[]")
      ∧ (_route_bills subs kept ≠ [] →
           json = json_dumps (generate_json isoformat subs kept)
           ∧ generate_notifications _generate_plain _generate_html subs kept
             = Ok (text, html)).
Proof.
  intros (kept & Hkept & [[Hnil (text & html & ->)]|[Hne (plain & html & Hnotes & ->)]])
    %main_outcome.
  - split; [done|]. exists kept, text, html, "[]". by repeat split.
  - split; [done|].
    exists kept, plain, html, (json_dumps (generate_json isoformat subs kept)).
    by repeat split.
Qed.

(** X23. In local mode a run that returns writes no file.  It has sent a
    message exactly when some actionable bill is routed and the
    recipients of the transportation subscription, of the housing
    subscription and of RECIPIENTS_ALL together are not empty; the message
    goes to all of them, in that order, with the fixed subject and the two
    rendered bodies, and its delivery, at the host and port of the
    environment, returned. *)
Theorem main_local_sends_one_message (environ : gmap string string)
    (subs : Subscriptions) (clock : Z) (bills : list Bill) (eff : Effects) :
  main_after_loading isoformat json_dumps _generate_plain _generate_html
    py_int smtp_deliver local environ subs clock bills = Ok eff →
  written eff = []
  ∧ ∃ kept,
      actionable (datetime_now clock) bills = Ok kept
      ∧ (is_Some (emailed eff) ↔
         _route_bills subs kept ≠ []
         ∧ recipients (transportation subs) ++ recipients (housing subs)
             ++ all_recipients subs ≠ [])
      ∧ ∀ m, emailed eff = Some m →
          msg_to m = recipients (transportation subs) ++ recipients (housing subs)
                       ++ all_recipients subs
          ∧ generate_notifications _generate_plain _generate_html subs kept
            = Ok (msg_plain m, msg_html m)
          ∧ msg_subject m = "IL Witness Slip Alerts – Urbanist Bills"
          ∧ ∃ settings port,
              py_int (getenv environ "SMTP_PORT" "1025") = Some port
              ∧ smtp_host settings = getenv environ "SMTP_HOST" "localhost"
              ∧ smtp_port settings = port
              ∧ smtp_deliver settings m = Ok tt.
Proof.
  intros (kept & Hkept & [[Hnil (text & html & ->)]|[Hne (plain & html & Hnotes & Hrun)]])
    %main_outcome.
  - split; [done|]. exists kept. split; [done|]. split; [|done].
    cbn. split; [by intros [m [=]]|]. by intros [Hne _].
  - destruct Hrun as (sent & Hsent & ->). split; [done|].
    exists kept. split; [done|]. cbn [emailed].
    apply send_email_Ok in Hsent
      as [[Hto ->]|(Hto & port & Hport & -> & settings & Hhost & Hp & Hdeliver)].
    + split; [|done]. split; [by intros [m [=]]|]. by intros [_ ?].
    + split; [by split|]. intros m [= <-]. cbn [msg_to msg_plain msg_html msg_subject].
      split; [done|]. split; [done|]. split; [done|]. by exists settings, port.
Qed.

(** X24. One hearing date that carries a zone stops the run in either mode:
    [main] raises a TypeError and leaves no artifact and no mail. *)
Theorem main_stops_on_aware_hearing (mode : Mode) (environ : gmap string string)
    (subs : Subscriptions) (clock : Z) (bills : list Bill) (b : Bill) :
  b ∈ bills → aware_hearing b →
  main_after_loading isoformat json_dumps _generate_plain _generate_html
    py_int smtp_deliver mode environ subs clock bills = Raise TypeError.
Proof.
  intros Hb Haware. unfold main_after_loading.
  destruct bills as [|b0 bills0]; [by apply elem_of_nil in Hb|].
  by rewrite (actionable_aware clock (b0 :: bills0)) by eauto.
Qed.



End RenderingFacts.

Lemma generate_json_distinct_numbers_witness :
  NoDup (entry_bill_number <$>
           generate_json sample_isoformat
             (sample_subscriptions ["transit@example.org"]) sample_bills).
Proof.
  apply generate_json_distinct_numbers.
  apply (bool_decide_unpack _). vm_compute. exact I.
Defined.

Lemma main_github_action_writes_three_files_witness :
  ∃ eff,
    main_after_loading sample_isoformat sample_dumps sample_plain sample_html
      int_basic no_server github_action ∅
      (sample_subscriptions ["transit@example.org"]) 0 sample_bills = Ok eff
    ∧ emailed eff = None.
Proof.
  eexists. split; [vm_compute; reflexivity|].
  refine (proj1 (main_github_action_writes_three_files sample_isoformat sample_dumps
                   sample_plain sample_html int_basic no_server ∅
                   (sample_subscriptions ["transit@example.org"]) 0 sample_bills _ _)).
  vm_compute. reflexivity.
Defined.

Lemma main_local_sends_one_message_witness :
  ∃ eff,
    main_after_loading sample_isoformat sample_dumps sample_plain sample_html
      int_basic accepting_server local ∅
      (sample_subscriptions ["transit@example.org"]) 0 sample_bills = Ok eff
    ∧ written eff = []
    ∧ msg_to <$> emailed eff = Some ["transit@example.org"; "housing@example.org"].
Proof.
  eexists. split; [vm_compute; reflexivity|]. split; [|reflexivity].
  refine (proj1 (main_local_sends_one_message sample_isoformat sample_dumps
                   sample_plain sample_html int_basic accepting_server ∅
                   (sample_subscriptions ["transit@example.org"]) 0 sample_bills _ _)).
  vm_compute. reflexivity.
Defined.

Lemma main_stops_on_aware_hearing_witness :
  main_after_loading sample_isoformat sample_dumps sample_plain sample_html
    int_basic accepting_server github_action ∅
    (sample_subscriptions ["transit@example.org"]) 0
    (sample_bills ++ [zoned_bill])
  = Raise TypeError.
Proof.
  apply (main_stops_on_aware_hearing _ _ _ _ _ _ _ _ _ _ _ zoned_bill).
  - apply elem_of_app. right. apply elem_of_cons. by left.
  - by exists {| wall := timedelta_days 10; utcoffset := Some 0 |}, 0.
Defined.




(** ** The two views of a Bill, and the pipeline *)

Lemma strings_of_strings (items : list string) :
  strings_of (PList (PStr <$> items)) = Some items.
Proof.
  unfold strings_of. apply mapM_Some. induction items as [|s items IH]; cbn.
  - constructor.
  - by constructor.
Qed.

Lemma as_Bill_typed (number : string) (c : Chamber) (title sponsor : string)
    (reading : BillReading) (loaded_subjects : pyval) (subjects : list string)
    (hearing : option datetime) (name : option string) (url : string) :
  strings_of loaded_subjects = Some subjects →
  as_Bill {| obj_bill_number := PStr number; obj_chamber := c;
             obj_title := PStr title; obj_sponsor := PStr sponsor;
             obj_next_reading := reading; obj_subjects := loaded_subjects;
             obj_committee_hearing_date := hearing;
             obj_committee_name := from_option PStr PNone name;
             obj_ilga_url := PStr url |}
  = Some {| bill_number := number; chamber := c; title := title;
            sponsor := sponsor; next_reading := reading; subjects := subjects;
            committee_hearing_date := hearing; committee_name := name;
            ilga_url := url |}.
Proof. intros Hsub. unfold as_Bill. cbn. rewrite Hsub. by destruct name. Qed.

(** X26. On values of the annotated types the object [Bill(...)] builds from
    loaded JSON is the Bill of the typed model: both readings of
    [__init__] agree, on the default of the subjects and on the status URL
    that stands in for a missing or empty source URL. *)
Theorem new_Bill_agrees_with_Bill_init (number : string) (c : Chamber)
    (title sponsor : string) (reading : BillReading) (subjects : list string)
    (hearing : option datetime) (name url : option string) :
  ∃ o,
    new_Bill (PStr number) c (PStr title) (PStr sponsor) reading
      (PList (PStr <$> subjects)) hearing
      (from_option PStr PNone name) (from_option PStr PNone url) = Ok o
    ∧ as_Bill o
      = Some (Bill_init number c title sponsor reading (Some subjects) hearing name url).
Proof.
  assert (Hsub : strings_of (if truthy (PList (PStr <$> subjects))
                             then PList (PStr <$> subjects) else PList [])
                 = Some subjects).
  { destruct subjects as [|s subjects]; [done|]. apply (strings_of_strings (s :: _)). }
  destruct url as [[|a u]|];
    (eexists; split; [reflexivity|]); by apply as_Bill_typed.
Qed.

Lemma as_Bill_key (o : BillObject) (b : Bill) :
  as_Bill o = Some b → identifier_key o = HStr (bill_number b).
Proof.
  unfold as_Bill, identifier_key.
  destruct (obj_bill_number o) as [| | |number| |]; try done.
  destruct (obj_title o); try done. destruct (obj_sponsor o); try done.
  destruct (obj_ilga_url o); try done.
  intros (subjects & _ & Hb)%bind_Some.
  apply bind_Some in Hb as (name & _ & [= <-]). done.
Qed.

Lemma as_Bill_distinct (objects : list BillObject) (bills : list Bill) :
  Forall2 (λ o b, as_Bill o = Some b) objects bills →
  NoDup (identifier_key <$> objects) → NoDup (bill_number <$> bills).
Proof.
  induction 1 as [|o b objects bills Hob Hrest IH]; [constructor|].
  rewrite !fmap_cons. intros [Hfresh Hnd]%NoDup_cons.
  apply NoDup_cons. split; [|by apply IH].
  intros (b' & Heq & Hb')%list_elem_of_fmap. apply Hfresh.
  apply list_elem_of_lookup in Hb' as [i Hi].
  destruct (Forall2_lookup_r _ _ _ _ _ Hrest Hi) as (o' & Ho' & Hview).
  apply list_elem_of_fmap. exists o'. split; [|by eapply list_elem_of_lookup_2].
  by rewrite (as_Bill_key _ _ Hob), (as_Bill_key _ _ Hview), Heq.
Qed.

Section Pipeline.
Variable fromisoformat : string → option datetime.
Variable isoformat : datetime → string.

(** X27. From the data directory to the JSON artifact: when the loader
    returns bills whose fields have the annotated types and the filter
    returns, the identifiers of the loaded bills are pairwise different,
    the filter keeps a subsequence of them, and the JSON artifact names no
    identifier twice. *)
Theorem pipeline_names_each_identifier_once (bill_files : list json_file)
    (unique : list BillObject) (bills kept : list Bill) (clock : Z)
    (subs : Subscriptions) :
  parse_data_directory fromisoformat (Some bill_files) = Ok unique →
  mapM as_Bill unique = Some bills →
  actionable (datetime_now clock) bills = Ok kept →
  NoDup (bill_number <$> bills)
  ∧ kept `sublist_of` bills
  ∧ NoDup (entry_bill_number <$> generate_json isoformat subs kept).
Proof.
  intros [-> _]%loader_first_seen Hview%mapM_Some Hkept.
  assert (Hnd : NoDup (bill_number <$> bills)).
  { eapply as_Bill_distinct; [exact Hview|]. apply first_seen_NoDup. }
  assert (Hsub : kept `sublist_of` bills).
  { destruct (aware_hearing_dec bills) as [Haware|Hnaive].
    - by rewrite (actionable_aware clock bills Haware) in Hkept.
    - rewrite (actionable_naive clock bills Hnaive) in Hkept.
      injection Hkept as <-. apply sublist_filter. }
  split; [done|]. split; [done|].
  rewrite generate_json_numbers. apply routed_numbers_distinct.
  eapply sublist_NoDup; [exact Hnd|]. by apply fmap_sublist.
Qed.
End Pipeline.

Lemma pipeline_names_each_identifier_once_witness :
  ∃ unique bills kept,
    parse_data_directory fromisoformat_basic (Some sample_directory) = Ok unique
    ∧ mapM as_Bill unique = Some bills
    ∧ actionable (datetime_now 0) bills = Ok kept
    ∧ bill_number <$> kept = ["HB1234"]
    ∧ NoDup (entry_bill_number <$>
               generate_json sample_isoformat
                 (sample_subscriptions ["transit@example.org"]) kept).
Proof.
  do 3 eexists. split; [reflexivity|]. split; [reflexivity|].
  split; [reflexivity|]. split; [reflexivity|].
  refine (proj2 (proj2 (pipeline_names_each_identifier_once fromisoformat_basic
                          sample_isoformat sample_directory _ _ _ 0
                          (sample_subscriptions ["transit@example.org"])
                          eq_refl eq_refl eq_refl))).
Defined.
